(** * Eka Care reports-parsing SDK: the Python client, embedded and verified

    A shallow embedding of [src/python/ekacare_sdk/sdk.py] (class
    [EkaCareSDK]): authentication, document submission, result retrieval
    and the poll-and-wait loop, together with the properties the design
    specification states about them.

    Conventions.
    - Decoded JSON (what [response.json()] returns) is the type [json];
      a Python [dict] with string keys is a [gmap string json].
    - The outside world (file system, remote server, wall clock, the
      library functions the SDK calls) is an explicit environment [env];
      what a run does to it is recorded in a [world]: the current clock
      value and the chronological [trace] of observable events.
    - A Python computation is a function [world -> outcome A * world];
      an exception is the [Raise] outcome.  The only loop of the program
      ([while True] in [process_and_wait]) is unrolled with a fuel
      argument; running out of fuel is the separate outcome [OutOfFuel],
      never confused with an exception or a result.
    - Clock values are rational numbers of seconds; the rounding of
      Python's binary floats in [time.time() - start_time] is not
      modelled. *)

From Stdlib Require Import QArith Lqa SpecFloat.
From Stdlib Require Import Ascii String.
From stdpp Require Import gmap strings list fin_maps pretty.

Set Warnings "-register-all".
Close Scope Q_scope.
Open Scope string_scope.
Open Scope list_scope.

(** ** Decoded JSON values *)

(** The values [json.loads] produces: [None], [bool], [int], [float],
    [str], [list] and [dict] (keys are strings). *)
Inductive json : Type :=
| JNull
| JBool (b : bool)
| JInt (z : Z)
| JFloat (f : spec_float)
| JString (s : string)
| JArray (l : list json)
| JObject (o : gmap string json).

(** Python truth value testing ([bool(v)]): [None], [False], zero of
    either numeric type, and the empty string, list and dict are false;
    everything else is true. *)
Definition py_truthy (v : json) : bool :=
  match v with
  | JNull => false
  | JBool b => b
  | JInt z => negb (z =? 0)%Z
  | JFloat (S754_zero _) => false
  | JFloat _ => true
  | JString s => negb (String.eqb s "")
  | JArray l => match l with [] => false | _ => true end
  | JObject o => negb (bool_decide (o = ∅))
  end.

(** [type(v).__name__], used in the text of attribute errors. *)
Definition py_type_name (v : json) : string :=
  match v with
  | JNull => "NoneType"
  | JBool _ => "bool"
  | JInt _ => "int"
  | JFloat _ => "float"
  | JString _ => "str"
  | JArray _ => "list"
  | JObject _ => "dict"
  end.

(** [v == s] for a string literal [s]: only the string [s] itself is
    equal to it. *)
Definition py_eq_str (v : json) (s : string) : bool :=
  match v with
  | JString s' => String.eqb s' s
  | _ => false
  end.

(** ** Exceptions *)

(** Why a [requests] call failed; all three are subclasses of
    [requests.exceptions.RequestException] (the package requires
    [requests>=2.28.0], where [JSONDecodeError] is one). *)
Inductive request_failure :=
| ConnectionFailure (msg : string)
| HTTPError (status : Z)
| JSONDecodeError.

Inductive exn :=
| FileNotFoundError (msg : string)
| ValueError (msg : string)
| KeyError (key : string)
| TypeError
| AttributeError (type_name attr : string)
| OSError (msg : string)
| TimeoutError (msg : string)
| RequestException (why : request_failure)
| PyException (msg : string).          (* a plain [Exception(msg)] *)

(** ** HTTP messages *)

Inductive http_method := GET | POST.

(** One part of a multipart upload: [(filename, fileobj, content_type)]. *)
Record file_part := {
  part_filename : string;
  part_content : list Byte.byte;
  part_content_type : string
}.

Inductive http_body :=
| NoBody
| JsonBody (j : json)
| FilesBody (files : list (string * file_part)).

(** A request as it leaves the session: [req_params] is the query
    string as an ordered list (keys may repeat), [req_headers] the
    session's headers merged with the call's own. *)
Record request := {
  req_method : http_method;
  req_url : string;
  req_params : list (string * string);
  req_headers : gmap string string;
  req_body : http_body
}.

(** What the network gives back: no response at all, or a response with
    a status code and a body ([None] when the body is not valid JSON). *)
Inductive reply :=
| TransportFailure (msg : string)
| Response (status : Z) (payload : option json).

(** ** The environment and the world *)

Inductive fs_entry :=
| Absent
| RegularFile (content : list Byte.byte)
| Unopenable (msg : string).   (* exists, but [open(path, "rb")] fails *)

Record env := {
  (* the local file system *)
  fs : string -> fs_entry;
  (* the remote side: reply to the k-th request of the run, and the
     seconds the exchange takes *)
  server : nat -> request -> Q * reply;
  (* extra seconds the k-th [time.sleep] oversleeps *)
  oversleep : nat -> Q;
  (* library functions *)
  guess_type : string -> option string;       (* mimetypes.guess_type(p)[0] *)
  path_name : string -> string;               (* Path(p).name *)
  py_str : json -> string;                    (* str(v) of a non-string *)
  failure_text : request_failure -> string;   (* str(e) of a RequestException *)
  default_headers : gmap string string        (* of a fresh requests.Session *)
}.

Inductive event :=
| EvHttp (req : request) (rep : reply)
| EvClock (t : Q)
| EvSleep (secs : Z).

Record world := {
  now : Q;
  trace : list event
}.

Definition is_http (e : event) : bool :=
  match e with EvHttp _ _ => true | _ => false end.

Definition is_sleep (e : event) : bool :=
  match e with EvSleep _ => true | _ => false end.

(** The requests of a trace, oldest first. *)
Fixpoint requests_of (tr : list event) : list request :=
  match tr with
  | [] => []
  | EvHttp req _ :: tr' => req :: requests_of tr'
  | _ :: tr' => requests_of tr'
  end.

(** The status codes [raise_for_status] turns into an [HTTPError]. *)
Definition error_status (st : Z) : bool := ((400 <=? st) && (st <? 600))%Z.

(** The payloads a trace's result fetches delivered: the decoded bodies
    of the successful replies to [GET] requests. *)
Fixpoint fetched_payloads (tr : list event) : list json :=
  match tr with
  | [] => []
  | EvHttp req (Response st (Some p)) :: tr' =>
      match req_method req with
      | GET => if error_status st then fetched_payloads tr'
               else p :: fetched_payloads tr'
      | POST => fetched_payloads tr'
      end
  | _ :: tr' => fetched_payloads tr'
  end.

(** ** Computations *)

Inductive outcome (A : Type) :=
| Return (a : A)
| Raise (e : exn)
| OutOfFuel.
Arguments Return {A} a.
Arguments Raise {A} e.
Arguments OutOfFuel {A}.

Definition M (A : Type) : Type := world -> outcome A * world.

Definition ret {A} (a : A) : M A := fun w => (Return a, w).
Definition raise {A} (e : exn) : M A := fun w => (Raise e, w).
Definition out_of_fuel {A} : M A := fun w => (OutOfFuel, w).

Definition bind {A B} (m : M A) (k : A -> M B) : M B :=
  fun w =>
    match m w with
    | (Return a, w') => k a w'
    | (Raise e, w') => (Raise e, w')
    | (OutOfFuel, w') => (OutOfFuel, w')
    end.

(** [try: m  except ...: h e]; the handler answers [None] for the
    exceptions no [except] clause matches, which propagate. *)
Definition try_except {A} (m : M A) (h : exn -> option (M A)) : M A :=
  fun w =>
    match m w with
    | (Raise e, w') =>
        match h e with
        | Some k => k w'
        | None => (Raise e, w')
        end
    | r => r
    end.

Notation "'let*' x ':=' m 'in' k" := (bind m (fun x => k))
  (at level 10, x name, m at level 100, k at level 200, only parsing).
Notation "'let*' '_' ':=' m 'in' k" := (bind m (fun _ => k))
  (at level 10, m at level 100, k at level 200, only parsing).

Definition log (e : event) (w : world) : world :=
  {| now := now w; trace := trace w ++ [e] |}.

Definition advance (d : Q) (w : world) : world :=
  {| now := (now w + d)%Q; trace := trace w |}.

(** ** Python and library primitives *)

(** [f"{v}"]: a string formats as itself, anything else through [str]. *)
Definition py_format (E : env) (v : json) : string :=
  match v with
  | JString s => s
  | _ => py_str E v
  end.

(** [v[k]] for a string key [k]: only a [dict] can be subscripted by a
    string; a missing key is a [KeyError]. *)
Definition py_getitem (v : json) (k : string) : M json :=
  match v with
  | JObject o =>
      match o !! k with
      | Some x => ret x
      | None => raise (KeyError k)
      end
  | _ => raise TypeError
  end.

(** [v.get(k, dflt)]: among decoded JSON values only a [dict] has a
    [get] method. *)
Definition py_get (v : json) (k : string) (dflt : json) : M json :=
  match v with
  | JObject o => ret (default dflt (o !! k))
  | _ => raise (AttributeError (py_type_name v) "get")
  end.

(** [s.rstrip(c)] for a single character [c]. *)
Fixpoint rstrip (c : Ascii.ascii) (s : string) : string :=
  match s with
  | EmptyString => EmptyString
  | String a s' =>
      match rstrip c s' with
      | EmptyString => if Ascii.eqb a c then EmptyString else String a EmptyString
      | r => String a r
      end
  end.

(** [time.time()] *)
Definition time_time : M Q :=
  fun w => (Return (now w), log (EvClock (now w)) w).

(** [time.sleep(secs)]: a negative length is a [ValueError]; otherwise
    the clock moves on by [secs] plus whatever the call oversleeps. *)
Definition time_sleep (E : env) (secs : Z) : M unit :=
  fun w =>
    if (secs <? 0)%Z then
      (Raise (ValueError "sleep length must be non-negative"), w)
    else
      let k := length (filter is_sleep (trace w)) in
      (Return tt, advance (inject_Z secs + oversleep E k) (log (EvSleep secs) w)).

(** A [requests.Session]: what the SDK touches of it is its headers. *)
Record session := { headers : gmap string string }.

(** A [requests.Response]. *)
Record response := { status_code : Z; body : option json }.

(** [session.request(...)]: the call's headers take precedence over the
    session's; the exchange is recorded, takes the time the environment
    says, and either delivers a response or raises. *)
Definition session_request (E : env) (s : session) (m : http_method)
    (url : string) (params : list (string * string))
    (hdrs : gmap string string) (b : http_body) : M response :=
  fun w =>
    let req := {| req_method := m; req_url := url; req_params := params;
                  req_headers := hdrs ∪ headers s; req_body := b |} in
    let k := length (filter is_http (trace w)) in
    let rep := snd (server E k req) in
    let w' := advance (fst (server E k req)) (log (EvHttp req rep) w) in
    match rep with
    | TransportFailure msg => (Raise (RequestException (ConnectionFailure msg)), w')
    | Response st p => (Return {| status_code := st; body := p |}, w')
    end.

(** [response.raise_for_status()] *)
Definition raise_for_status (r : response) : M unit :=
  if error_status (status_code r)
  then raise (RequestException (HTTPError (status_code r)))
  else ret tt.

(** [response.json()]: the decoded body, or the [JSONDecodeError] of
    [requests] for a body that is not JSON.  The bodies of [reply] are
    those the decoder either accepts or refuses as JSON; a decoder
    limit hit on well-formed JSON (an integer literal beyond the
    interpreter's digit limit, nesting beyond its recursion limit) has
    no counterpart here: the properties below are about replies of
    these two kinds. *)
Definition response_json (r : response) : M json :=
  match body r with
  | Some j => ret j
  | None => raise (RequestException JSONDecodeError)
  end.

(** [Path(p).exists()], for the paths the file system can answer for:
    an [fs_entry] is there or not.  A path whose lookup itself fails
    (too long a name, a directory that cannot be searched) has no
    [fs_entry]. *)
Definition path_exists (E : env) (p : string) : bool :=
  match fs E p with
  | Absent => false
  | _ => true
  end.

(** [open(p, "rb")], read when the upload is sent. *)
Definition open_rb (E : env) (p : string) : M (list Byte.byte) :=
  match fs E p with
  | Absent => raise (FileNotFoundError p)
  | RegularFile c => ret c
  | Unopenable msg => raise (OSError msg)
  end.

(** ** The SDK: class [EkaCareSDK] *)

Module EkaCareSDK.

Definition AUTH_ENDPOINT : string := "/connect-auth/v1/account/login".
Definition PROCESS_ENDPOINT : string := "/mr/api/v2/docs".

(** [RESULT_ENDPOINT.format(document_id=d)] *)
Definition RESULT_ENDPOINT (E : env) (d : json) : string :=
  "/mr/api/v1/docs/" +:+ py_format E d +:+ "/result".

(** The instance attributes. *)
Record sdk := {
  client_id : string;
  client_secret : string;
  base_url : string;
  _bearer_token : option json;
  _session : session
}.

Definition _authenticate (E : env) (self : sdk) : M sdk :=
  let url := base_url self +:+ AUTH_ENDPOINT in
  let payload :=
    JObject (<["client_id" := JString (client_id self)]>
             (<["client_secret" := JString (client_secret self)]> ∅)) in
  let hdrs : gmap string string := {["Content-Type" := "application/json"]} in
  try_except
    (let* response :=
       session_request E (_session self) POST url [] hdrs (JsonBody payload) in
     let* _ := raise_for_status response in
     let* data := response_json response in
     let* token := py_getitem data "access_token" in
     (* Set authorization header for future requests *)
     ret {| client_id := client_id self;
            client_secret := client_secret self;
            base_url := base_url self;
            _bearer_token := Some token;
            _session :=
              {| headers := <["Authorization" := "Bearer " +:+ py_format E token]>
                              (headers (_session self)) |} |})
    (fun e =>
       match e with
       | RequestException why =>
           Some (raise (PyException
                          ("Authentication failed: " +:+ failure_text E why)))
       | KeyError _ =>
           Some (raise (PyException
                          "Access token not found in authentication response"))
       | _ => None
       end).

Definition __init__ (E : env) (client_id client_secret base_url : string)
    : M sdk :=
  let self :=
    {| client_id := client_id;
       client_secret := client_secret;
       base_url := rstrip "/"%char base_url;
       _bearer_token := None;
       _session := {| headers := default_headers E |} |} in
  (* Authenticate and get token *)
  _authenticate E self.

Definition valid_tasks : list string := ["smart"; "pii"; "both"].

(** [content_type or "application/octet-stream"] *)
Definition content_type_or_default (ct : option string) : string :=
  match ct with
  | Some s => if String.eqb s "" then "application/octet-stream" else s
  | None => "application/octet-stream"
  end.

Definition process_document (E : env) (self : sdk)
    (file_path doc_type task : string) : M json :=
  (* Validate file exists *)
  if negb (path_exists E file_path) then
    raise (FileNotFoundError ("File not found: " +:+ file_path))
  else
  (* Validate task parameter *)
  if negb (bool_decide (task ∈ valid_tasks)) then
    raise (ValueError ("Invalid task. Must be one of: "
                       +:+ String.concat ", " valid_tasks))
  else
  let url := base_url self +:+ PROCESS_ENDPOINT in
  (* Build params - handle 'both' case with multiple task parameters *)
  let params :=
    ("dt", doc_type) ::
    (if String.eqb task "both"
     then [("task", "smart"); ("task", "pii")]
     else [("task", task)]) in
  let content_type := guess_type E file_path in
  let* file := open_rb E file_path in
  let files :=
    [("file", {| part_filename := path_name E file_path;
                 part_content := file;
                 part_content_type := content_type_or_default content_type |})] in
  let* response :=
    session_request E (_session self) POST url params ∅ (FilesBody files) in
  let* _ := raise_for_status response in
  response_json response.

Definition get_document_result (E : env) (self : sdk) (document_id : json)
    : M json :=
  let url := base_url self +:+ RESULT_ENDPOINT E document_id in
  let* response := session_request E (_session self) GET url [] ∅ NoBody in
  let* _ := raise_for_status response in
  response_json response.

(** [data.get("fhir") and data.get("output")], as a truth value. *)
Definition check_complete (data : json) : M bool :=
  let* fhir := py_get data "fhir" JNull in
  if py_truthy fhir then
    let* output := py_get data "output" JNull in
    ret (py_truthy output)
  else ret false.

(** The [while True] loop of [process_and_wait]; [fuel] bounds the
    number of iterations. *)
Fixpoint poll_loop (E : env) (fuel : nat) (self : sdk) (document_id : json)
    (poll_interval timeout : Z) (start_time : Q) : M json :=
  match fuel with
  | O => out_of_fuel
  | S fuel' =>
      (* Check timeout *)
      let* t := time_time in
      if negb (Qle_bool (t - start_time) (inject_Z timeout)) then
        raise (TimeoutError ("Document processing timed out after "
                             +:+ pretty timeout +:+ " seconds"))
      else
      let* result := get_document_result E self document_id in
      let* data := py_get result "data" (JObject ∅) in
      (* Check if processing is complete *)
      let* complete := check_complete data in
      if complete then ret result
      else
      (* Check if processing failed *)
      let* status := py_get result "status" JNull in
      if py_eq_str status "failed" then
        raise (PyException "Document processing failed")
      else
      (* Wait before next poll *)
      let* _ := time_sleep E poll_interval in
      poll_loop E fuel' self document_id poll_interval timeout start_time
  end.

Definition process_and_wait (E : env) (fuel : nat) (self : sdk)
    (file_path task : string) (poll_interval timeout : Z) : M json :=
  (* Submit document *)
  let* submit_result := process_document E self file_path "lr" task in
  let* document_id := py_getitem submit_result "document_id" in
  (* Poll for results *)
  let* start_time := time_time in
  poll_loop E fuel self document_id poll_interval timeout start_time.

End EkaCareSDK.

(** ** The specification's vocabulary *)

(** A field of a decoded payload: [p.k] where [p] is an object that has
    the key. *)
Definition field (p : json) (k : string) : option json :=
  match p with
  | JObject o => o !! k
  | _ => None
  end.

Definition nonempty_field (p : json) (k : string) : bool :=
  match field p k with
  | Some v => py_truthy v
  | None => false
  end.

(** The completion condition of the design: the payload has both
    [data.fhir] and [data.output], non-empty.  The [status] field plays
    no part in it. *)
Definition completion_condition (p : json) : bool :=
  match field p "data" with
  | Some d => nonempty_field d "fhir" && nonempty_field d "output"
  | None => false
  end.

(** The payload reports failure: its [status] field is the string
    ["failed"]. *)
Definition status_failed (p : json) : bool :=
  match field p "status" with
  | Some v => py_eq_str v "failed"
  | None => false
  end.

(** The shape of a [DocumentResult]: an object whose [data], when
    present, is an object. *)
Definition result_shape (p : json) : bool :=
  match p with
  | JObject o =>
      match o !! "data" with
      | None | Some (JObject _) => true
      | Some _ => false
      end
  | _ => false
  end.

(** The error kinds of the design, as the SDK raises them. *)
Definition ProcessingFailedError : exn :=
  PyException "Document processing failed".

Definition AuthenticationError (E : env) (e : exn) : Prop :=
  (exists why, e = PyException ("Authentication failed: " +:+ failure_text E why))
  \/ e = PyException "Access token not found in authentication response".

Definition timeout_error (timeout : Z) : exn :=
  TimeoutError ("Document processing timed out after "
                +:+ pretty timeout +:+ " seconds").

(** ** The poll-and-wait loop as a relation on traces *)

Import EkaCareSDK.

(** What [raise_for_status()] followed by [json()] makes of a reply. *)
Definition decode_reply (rep : reply) : outcome json :=
  match rep with
  | TransportFailure msg => Raise (RequestException (ConnectionFailure msg))
  | Response st p =>
      if error_status st then Raise (RequestException (HTTPError st))
      else match p with
           | Some j => Return j
           | None => Raise (RequestException JSONDecodeError)
           end
  end.

(** What one iteration of the loop concludes from a fetched payload. *)
Inductive verdict :=
| Complete
| Failed
| Pending
| Broken (e : exn).

Definition inspect (p : json) : verdict :=
  match p with
  | JObject o =>
      match default (JObject ∅) (o !! "data") with
      | JObject d =>
          if py_truthy (default JNull (d !! "fhir"))
             && py_truthy (default JNull (d !! "output"))
          then Complete
          else if py_eq_str (default JNull (o !! "status")) "failed"
               then Failed else Pending
      | v => Broken (AttributeError (py_type_name v) "get")
      end
  | v => Broken (AttributeError (py_type_name v) "get")
  end.

(** The request [get_document_result] sends. *)
Definition result_request (E : env) (self : sdk) (document_id : json)
    : request :=
  {| req_method := GET;
     req_url := base_url self +:+ RESULT_ENDPOINT E document_id;
     req_params := [];
     req_headers := ∅ ∪ headers (_session self);
     req_body := NoBody |}.

(** The request [process_document] sends for a readable file. *)
Definition upload_request (E : env) (self : sdk)
    (file_path doc_type task : string) (content : list Byte.byte) : request :=
  {| req_method := POST;
     req_url := base_url self +:+ PROCESS_ENDPOINT;
     req_params :=
       ("dt", doc_type) ::
       (if String.eqb task "both"
        then [("task", "smart"); ("task", "pii")]
        else [("task", task)]);
     req_headers := ∅ ∪ headers (_session self);
     req_body :=
       FilesBody
         [("file", {| part_filename := path_name E file_path;
                      part_content := content;
                      part_content_type :=
                        content_type_or_default (guess_type E file_path) |})] |}.

(** The values a query string gives to one key, in order. *)
Definition param_values (k : string) (params : list (string * string))
    : list string :=
  map snd (filter (fun kv => bool_decide (kv.1 = k)) params).

Section LoopRelation.

Context (E : env) (self : sdk) (document_id : json).
Context (poll_interval timeout : Z) (start_time : Q).

(** [loop_run new r]: a run of the loop appends the events [new] to
    the trace and ends with outcome [r].  One constructor per way an
    iteration can go. *)
Inductive loop_run : list event -> outcome json -> Prop :=
| run_out_of_fuel :
    loop_run [] OutOfFuel
| run_timeout t :
    (inject_Z timeout < t - start_time)%Q ->
    loop_run [EvClock t] (Raise (timeout_error timeout))
| run_fetch_error t rep e :
    (t - start_time <= inject_Z timeout)%Q ->
    decode_reply rep = Raise e ->
    loop_run [EvClock t; EvHttp (result_request E self document_id) rep]
             (Raise e)
| run_complete t rep p :
    (t - start_time <= inject_Z timeout)%Q ->
    decode_reply rep = Return p ->
    inspect p = Complete ->
    loop_run [EvClock t; EvHttp (result_request E self document_id) rep]
             (Return p)
| run_failed t rep p :
    (t - start_time <= inject_Z timeout)%Q ->
    decode_reply rep = Return p ->
    inspect p = Failed ->
    loop_run [EvClock t; EvHttp (result_request E self document_id) rep]
             (Raise ProcessingFailedError)
| run_broken t rep p e :
    (t - start_time <= inject_Z timeout)%Q ->
    decode_reply rep = Return p ->
    inspect p = Broken e ->
    loop_run [EvClock t; EvHttp (result_request E self document_id) rep]
             (Raise e)
| run_bad_sleep t rep p :
    (t - start_time <= inject_Z timeout)%Q ->
    decode_reply rep = Return p ->
    inspect p = Pending ->
    (poll_interval < 0)%Z ->
    loop_run [EvClock t; EvHttp (result_request E self document_id) rep]
             (Raise (ValueError "sleep length must be non-negative"))
| run_again t rep p rest r :
    (t - start_time <= inject_Z timeout)%Q ->
    decode_reply rep = Return p ->
    inspect p = Pending ->
    (0 <= poll_interval)%Z ->
    loop_run rest r ->
    loop_run (EvClock t :: EvHttp (result_request E self document_id) rep
                :: EvSleep poll_interval :: rest) r.

End LoopRelation.

(** ** Concrete scenarios *)

Module Scenario.

(** A server that answers the k-th request with the k-th reply of a
    script (and [dflt] once the script is exhausted); every exchange
    takes one second. *)
Definition scripted (script : list reply) (dflt : reply)
    : nat -> request -> Q * reply :=
  fun k _ => (1%Q, default dflt (script !! k)).

(** An environment with one readable file, ["report.jpg"]. *)
Definition env_of (srv : nat -> request -> Q * reply) : env :=
  {| fs := fun p => if String.eqb p "report.jpg"
                    then RegularFile [Byte.xff; Byte.xd8] else Absent;
     server := srv;
     oversleep := fun _ => 0%Q;
     guess_type := fun _ => Some "image/jpeg";
     path_name := fun p => p;
     py_str := fun _ => "";
     failure_text := fun _ => "";
     default_headers := ∅ |}.

Definition w0 : world := {| now := 0%Q; trace := [] |}.

(** A client as [__init__] leaves it after receiving the token ["tok"]. *)
Definition client : sdk :=
  {| client_id := "id";
     client_secret := "secret";
     base_url := "https://api.eka.care";
     _bearer_token := Some (JString "tok");
     _session := {| headers := {["Authorization" := "Bearer tok"]} |} |}.

Definition obj (fields : list (string * json)) : json :=
  JObject (list_to_map fields).

Definition token_reply : reply :=
  Response 200 (Some (obj [("access_token", JString "tok")])).

Definition submitted : reply :=
  Response 200 (Some (obj [("document_id", JString "doc_1");
                           ("status", JString "queued")])).

Definition pending_payload : json :=
  obj [("status", JString "pending"); ("data", obj [])].

Definition completed_payload : json :=
  obj [("status", JString "completed");
       ("data", obj [("fhir", obj [("resourceType", JString "Bundle")]);
                     ("output", obj [("name", JString "CBC")])]);
       ("extra", JArray [JInt 1; JNull])].

Definition failed_payload : json :=
  obj [("status", JString "failed"); ("data", obj [])].

(** Both fields present, but the status still says ["pending"]. *)
Definition early_payload : json :=
  obj [("status", JString "pending");
       ("data", obj [("fhir", JString "f"); ("output", JString "o")])].

(** Status ["completed"], but [output] is missing. *)
Definition hollow_payload : json :=
  obj [("status", JString "completed");
       ("data", obj [("fhir", JString "f")])].

Definition ok (p : json) : reply := Response 200 (Some p).

End Scenario.

(** ** Vocabulary for authentication *)

(** The request [_authenticate] sends from a freshly built client. *)
Definition auth_request (E : env) (client_id client_secret base_url : string)
    : request :=
  {| req_method := POST;
     req_url := rstrip "/"%char base_url +:+ AUTH_ENDPOINT;
     req_params := [];
     req_headers := {["Content-Type" := "application/json"]} ∪ default_headers E;
     req_body :=
       JsonBody
         (JObject (<["client_id" := JString client_id]>
                   (<["client_secret" := JString client_secret]> ∅))) |}.






(** ** The waiting state as the design document words it *)

(** The design's state machine for the waiting state, step by step in
    the order it lists them: fetch the result; if both [data.fhir] and
    [data.output] are present, return the payload; else if the status
    is ["failed"], raise; else if the time elapsed since the loop
    started exceeds the timeout, raise [TimeoutError]; else sleep and
    stay in the waiting state. *)
Fixpoint spec_waiting (E : env) (fuel : nat) (self : sdk) (document_id : json)
    (poll_interval timeout : Z) (start_time : Q) : M json :=
  match fuel with
  | O => out_of_fuel
  | S fuel' =>
      let* result := get_document_result E self document_id in
      if completion_condition result then ret result
      else if status_failed result then raise ProcessingFailedError
      else
        let* t := time_time in
        if negb (Qle_bool (t - start_time) (inject_Z timeout)) then
          raise (timeout_error timeout)
        else
          let* _ := time_sleep E poll_interval in
          spec_waiting E fuel' self document_id poll_interval timeout start_time
  end.

(** ** Assumptions about the environment used by the timeout property *)


(** Exchanges and sleeps never take negative time. *)
Definition time_moves_forward (E : env) : Prop :=
  (forall k req, (0 <= (server E k req).1)%Q)
  /\ (forall k, (0 <= oversleep E k)%Q).

(** The clock does not stand still: an exchange followed by a sleep of
    [poll_interval] seconds, that is one iteration of the loop, takes
    at least [tick] seconds, for some positive [tick]. *)
Definition clock_advances (E : env) (poll_interval : Z) : Prop :=
  exists tick : Q,
    (0 < tick)%Q
    /\ forall k req j,
         (tick <= (server E k req).1
                  + (inject_Z poll_interval + oversleep E j))%Q.


Module Runs.

Import Scenario.

(** The upload succeeds; the first poll is pending, the second complete. *)
Definition E_completes : env :=
  env_of (scripted [submitted; ok pending_payload; ok completed_payload]
            (ok pending_payload)).

(** The upload succeeds; the first poll is pending, the second failed. *)
Definition E_fails : env :=
  env_of (scripted [submitted; ok pending_payload; ok failed_payload]
            (ok pending_payload)).

(** The upload succeeds; every poll is pending. *)
Definition E_pending : env :=
  env_of (fun _ req =>
            match req_method req with
            | POST => (1%Q, submitted)
            | GET => (1%Q, ok pending_payload)
            end).

(** The upload succeeds, but the response has no ["document_id"]. *)
Definition E_no_id : env :=
  env_of (scripted [ok (obj [("status", JString "queued")])]
            (ok pending_payload)).

(** The login succeeds with the token ["tok"]. *)
Definition E_login : env :=
  env_of (scripted [token_reply] (ok pending_payload)).

(** For the loop on its own: pending, then complete. *)
Definition E_poll : env :=
  env_of (scripted [ok pending_payload; ok completed_payload]
            (ok pending_payload)).

(** For a single fetch. *)
Definition E_fetch (p : json) : env := env_of (scripted [ok p] (ok p)).

Definition jpeg : list Byte.byte := [Byte.xff; Byte.xd8].


(** A failed document, reported with [data: null]. *)
Definition failed_null_payload : json :=
  obj [("status", JString "failed"); ("data", JNull)].



(** The upload succeeds; the first poll is pending, the second failed
    with [data: null]. *)
Definition E_fails_null : env :=
  env_of (scripted [submitted; ok pending_payload; ok failed_null_payload]
            (ok pending_payload)).


End Runs.

(** * Further behaviour of the SDK *)

(** [s] ends with the character [c]. *)
Definition ends_with (c : Ascii.ascii) (s : string) : Prop :=
  exists s', s = s' +:+ String c EmptyString.

(** The request is the result fetch of [document_id]. *)
Definition is_fetch_of (E : env) (self : sdk) (document_id : json)
    (req : request) : Prop :=
  req = result_request E self document_id.

(** * The command line: [ekacare_sdk/cli.py] *)

(** The module embeds [print_result] and [main] from the parsed
    arguments on ([argparse] itself is library code).  What the program
    writes and the closing of the session are recorded in a console
    log beside the world of the SDK.  The interrupt handler
    ([except KeyboardInterrupt]) is left out: no operation of the model
    raises an interrupt. *)

Module Cli.

Inductive stream := Stdout | Stderr.

Inductive cli_event :=
| Printed (to : stream) (text : string)   (* the text written, [end] included *)
| HelpPrinted                             (* [parser.print_help()] *)
| TracebackPrinted                        (* [traceback.print_exc()] *)
| SessionClosed.                          (* [sdk.close()] *)

(** The parsed arguments, [args]; [file] is [str(args.file)]. *)
Record args := {
  client_id : option string;
  client_secret : option string;
  base_url : string;
  file : option string;
  task : string;
  doc_type : string;
  no_wait : bool;
  poll_interval : Z;
  timeout : Z;
  verbose : bool;
  quiet : bool;
  json_flag : bool                        (* [args.json] *)
}.

(** What the command line needs beyond the SDK's environment. *)
Record cli_env := {
  sdk_env : env;
  (* [EkaCareConfig.from_env(base_url=b)]: the client id and secret it
     finds, or the exception it raises (its source is not part of the
     files at hand) *)
  from_env : string -> exn + (string * string);
  json_dumps : json -> string;            (* [json.dumps(v, indent=2)] *)
  repr_str : string -> string;            (* [repr(s)] of a [str] *)
  type_error_text : string;               (* [str(e)] of the [TypeError] *)
  unbound_text : string -> string         (* [str(e)] of an [UnboundLocalError] *)
}.

(** The exceptions of [main]: those of the SDK, and the one Python
    raises when a local variable is read before it is assigned. *)
Inductive cli_exn :=
| Sdk (e : exn)
| UnboundLocalError (name : string).

Inductive cli_outcome (A : Type) :=
| Done (a : A)
| Fail (e : cli_exn)
| NoFuel.
Arguments Done {A} a.
Arguments Fail {A} e.
Arguments NoFuel {A}.

(** The state of a run of [main]: the world of the SDK, the console,
    and the local variable [sdk] ([None] until it is assigned). *)
Record cli_state := {
  world_of : world;
  console : list cli_event;
  sdk_var : option sdk
}.

Definition C (A : Type) : Type := cli_state -> cli_outcome A * cli_state.

Definition cret {A} (a : A) : C A := fun st => (Done a, st).
Definition cfail {A} (e : cli_exn) : C A := fun st => (Fail e, st).
Definition no_fuel {A} : C A := fun st => (NoFuel, st).

Definition cbind {A B} (m : C A) (k : A -> C B) : C B :=
  fun st =>
    match m st with
    | (Done a, st') => k a st'
    | (Fail e, st') => (Fail e, st')
    | (NoFuel, st') => (NoFuel, st')
    end.

Notation "'do*' x ':=' m 'in' k" := (cbind m (fun x => k))
  (at level 10, x name, m at level 100, k at level 200, only parsing).
Notation "'do*' '_' ':=' m 'in' k" := (cbind m (fun _ => k))
  (at level 10, m at level 100, k at level 200, only parsing).

(** A computation of the SDK, run on the world of the state. *)
Definition lift {A} (m : M A) : C A :=
  fun st =>
    let r := m (world_of st) in
    let st' := {| world_of := r.2; console := console st;
                  sdk_var := sdk_var st |} in
    match r.1 with
    | Return a => (Done a, st')
    | Raise e => (Fail (Sdk e), st')
    | OutOfFuel => (NoFuel, st')
    end.

Definition emit (e : cli_event) : C unit :=
  fun st =>
    (Done tt, {| world_of := world_of st; console := console st ++ [e];
                 sdk_var := sdk_var st |}).

Definition nl : string := String (Ascii.ascii_of_nat 10) EmptyString.

(** [print(text, end=ending, file=to)] *)
Definition print_end (to : stream) (text ending : string) : C unit :=
  emit (Printed to (text +:+ ending)).

(** [print(text, file=to)] *)
Definition print (to : stream) (text : string) : C unit :=
  print_end to text nl.

(** [when c: m] *)
Definition when (c : bool) (m : C unit) : C unit :=
  if c then m else cret tt.

(** [s * n] *)
Definition py_mul (s : string) (n : nat) : string :=
  String.concat "" (replicate n s).

(** [str(e)] *)
Definition str_exn (CE : cli_env) (e : cli_exn) : string :=
  match e with
  | Sdk (FileNotFoundError msg) | Sdk (ValueError msg) | Sdk (OSError msg)
  | Sdk (TimeoutError msg) | Sdk (PyException msg) => msg
  | Sdk (KeyError k) => repr_str CE k
  | Sdk TypeError => type_error_text CE
  | Sdk (AttributeError ty attr) =>
      "'" +:+ ty +:+ "' object has no attribute '" +:+ attr +:+ "'"
  | Sdk (RequestException why) => failure_text (sdk_env CE) why
  | UnboundLocalError name => unbound_text CE name
  end.

(** [print_result(result, verbose, as_json)].  [import json] is local
    to the function and runs in the [as_json] branch and in the [fhir]
    branch only: [json_bound] tells whether the name is bound when the
    [output] branch uses it. *)
Definition print_result (CE : cli_env) (result : json)
    (verbose as_json : bool) : C unit :=
  let E := sdk_env CE in
  if as_json then
    print Stdout (json_dumps CE result)
  else
    do* data := lift (py_get result "data" (JObject ∅)) in
    if verbose then
      do* _ := print Stdout (nl +:+ py_mul "=" 60) in
      do* _ := print Stdout "PROCESSING RESULT" in
      do* _ := print Stdout (py_mul "=" 60) in
      do* status := lift (py_get result "status" (JString "unknown")) in
      do* _ := print Stdout ("Status: " +:+ py_format E status) in
      do* fhir := lift (py_get data "fhir" JNull) in
      do* json_bound :=
        (if py_truthy fhir then
           do* _ := print Stdout (nl +:+ "FHIR Data:") in
           do* _ := print Stdout (py_mul "-" 60) in
           do* f := lift (py_getitem data "fhir") in
           do* _ := print Stdout (json_dumps CE f) in
           cret true
         else cret false) in
      do* output := lift (py_get data "output" JNull) in
      if py_truthy output then
        do* _ := print Stdout (nl +:+ "Output Data:") in
        do* _ := print Stdout (py_mul "-" 60) in
        if json_bound then
          do* o := lift (py_getitem data "output") in
          print Stdout (json_dumps CE o)
        else cfail (UnboundLocalError "json")
      else cret tt
    else
      do* _ := print Stdout (nl +:+ "✓ Processing completed successfully!") in
      do* fhir := lift (py_get data "fhir" JNull) in
      do* _ := when (py_truthy fhir)
                 (print Stdout "  FHIR data available: Yes") in
      do* output := lift (py_get data "output" JNull) in
      when (py_truthy output) (print Stdout "  Output data available: Yes").

(** How the waiting loop of [main] is left: by [break], or by a
    [return] with an exit code. *)
Inductive loop_exit :=
| Broke
| Returned (code : Z).

(** The [while True] loop of [main]. *)
Fixpoint wait_loop (CE : cli_env) (fuel : nat) (a : args) (client : sdk)
    (document_id : json) (start_time : Q) : C loop_exit :=
  let E := sdk_env CE in
  match fuel with
  | O => no_fuel
  | S fuel' =>
      (* Check timeout *)
      do* t := lift time_time in
      let elapsed := (t - start_time)%Q in
      if negb (Qle_bool elapsed (inject_Z (timeout a))) then
        do* _ := print Stderr (nl +:+ nl +:+ "Error: Processing timed out after "
                               +:+ pretty (timeout a) +:+ " seconds") in
        cret (Returned 1)
      else
      (* Get result *)
      do* result := lift (get_document_result E client document_id) in
      do* data := lift (py_get result "data" (JObject ∅)) in
      (* Check if complete *)
      do* complete := lift (check_complete data) in
      if complete then
        do* _ := when (negb (quiet a)) (print Stdout "") in
        do* _ := print_result CE result (verbose a) (json_flag a) in
        cret Broke
      else
      (* Check if failed *)
      do* status := lift (py_get result "status" JNull) in
      if py_eq_str status "failed" then
        do* _ := print Stderr (nl +:+ nl +:+ "Error: Document processing failed") in
        cret (Returned 1)
      else
      (* Wait and show progress *)
      do* _ := when (negb (quiet a)) (print_end Stdout "." "") in
      do* _ := lift (time_sleep E (poll_interval a)) in
      wait_loop CE fuel' a client document_id start_time
  end.

(** [x and y] on two optional strings, as a truth value. *)
Definition both_given (x y : option string) : option (string * string) :=
  match x, y with
  | Some u, Some v =>
      if negb (String.eqb u "") && negb (String.eqb v "")
      then Some (u, v) else None
  | _, _ => None
  end.

(** [sdk = EkaCareSDK(...)] *)
Definition assign_sdk (client : sdk) : C unit :=
  fun st =>
    (Done tt, {| world_of := world_of st; console := console st;
                 sdk_var := Some client |}).

(** The body of the [try] block of [main]. *)
Definition main_body (CE : cli_env) (fuel : nat) (a : args)
    (cid secret path : string) : C Z :=
  let E := sdk_env CE in
  (* Initialize SDK *)
  do* _ := when (negb (quiet a)) (print_end Stdout "Authenticating..." " ") in
  do* client := lift (__init__ E cid secret (base_url a)) in
  do* _ := assign_sdk client in
  do* _ := when (negb (quiet a)) (print Stdout "✓") in
  (* Process document *)
  do* _ := when (negb (quiet a))
             (print_end Stdout
                ("Processing document: " +:+ path_name E path +:+ "...") " ") in
  do* result := lift (process_document E client path (doc_type a) (task a)) in
  do* document_id := lift (py_getitem result "document_id") in
  do* _ := when (negb (quiet a))
             (do* _ := print Stdout "✓" in
              print Stdout ("Document ID: " +:+ py_format E document_id)) in
  (* Wait for results if requested *)
  do* left :=
    (if negb (no_wait a) then
       do* _ := when (negb (quiet a))
                  (print_end Stdout (nl +:+ "Waiting for processing to complete")
                     "") in
       do* start_time := lift time_time in
       wait_loop CE fuel a client document_id start_time
     else
       (* Just print document ID *)
       do* _ :=
         (if json_flag a then
            print Stdout
              (json_dumps CE (JObject {["document_id" := document_id]}))
          else
            print Stdout
              (nl +:+ "Document submitted. Use document ID to check status: "
               +:+ py_format E document_id)) in
       cret Broke) in
  match left with
  | Returned code => cret code
  | Broke => cret 0%Z
  end.

(** [except Exception as e:] *)
Definition main_handler (CE : cli_env) (a : args) (e : cli_exn) : C Z :=
  do* _ := print Stderr (nl +:+ "Error: " +:+ str_exn CE e) in
  do* _ := when (verbose a) (emit TracebackPrinted) in
  cret 1%Z.

(** [finally: sdk.close()] *)
Definition main_finally : C unit :=
  fun st =>
    match sdk_var st with
    | Some _ => emit SessionClosed st
    | None => (Fail (UnboundLocalError "sdk"), st)
    end.

(** [try: body  except Exception as e: handler e  finally: final]: the
    handler runs on an exception of the body; the final clause runs in
    every case, and an exception it raises replaces the pending result
    or exception. *)
Definition try_except_finally {A} (body : C A) (handler : cli_exn -> C A)
    (final : C unit) : C A :=
  fun st =>
    let '(r, st1) :=
      match body st with
      | (Fail e, st') => handler e st'
      | other => other
      end in
    match r with
    | NoFuel => (NoFuel, st1)
    | _ =>
        match final st1 with
        | (Done _, st2) => (r, st2)
        | (Fail e, st2) => (Fail e, st2)
        | (NoFuel, st2) => (NoFuel, st2)
        end
    end.

(** The first [try] block of [main]: the credentials come from the
    arguments when both are given and non-empty, and from the
    environment otherwise; the result is the pair, or the exception
    [from_env] raises. *)
Definition resolve_credentials (CE : cli_env) (a : args)
    : exn + (string * string) :=
  match both_given (client_id a) (client_secret a) with
  | Some c => inr c
  | None => from_env CE (base_url a)
  end.

(** [main(argv)], from the parsed arguments on. *)
Definition main (CE : cli_env) (fuel : nat) (a : args) : C Z :=
  let E := sdk_env CE in
  (* Get credentials from args or environment *)
  match resolve_credentials CE a with
  | inl (ValueError msg) =>
      do* _ := print Stderr ("Error: " +:+ msg) in
      do* _ := print Stderr
                 (nl +:+ "Provide credentials via arguments or environment variables:") in
      do* _ := print Stderr "  --client-id and --client-secret" in
      do* _ := print Stderr "  OR" in
      do* _ := print Stderr "  EKACARE_CLIENT_ID and EKACARE_CLIENT_SECRET" in
      cret 1%Z
  | inl e => cfail (Sdk e)
  | inr (cid, secret) =>
      (* Check if file is provided *)
      match file a with
      | None =>
          do* _ := print Stderr "Error: --file argument is required" in
          do* _ := emit HelpPrinted in
          cret 1%Z
      | Some path =>
          (* Validate file exists *)
          if negb (path_exists E path) then
            do* _ := print Stderr ("Error: File not found: " +:+ path) in
            cret 1%Z
          else
            try_except_finally
              (main_body CE fuel a cid secret path)
              (main_handler CE a)
              main_finally
      end
  end.

(** How the loop of [main] ends when the loop of [process_and_wait]
    ends with [r]: a returned payload is a [break]; the timeout and the
    reported failure are a [return 1]; any other exception is raised by
    both. *)
Definition loop_exit_of (r : outcome json) : cli_outcome loop_exit :=
  match r with
  | Return _ => Done Broke
  | Raise (TimeoutError _) | Raise (PyException _) => Done (Returned 1)
  | Raise e => Fail (Sdk e)
  | OutOfFuel => NoFuel
  end.

(** The exit code of [main] when [process_and_wait] ends with [r]. *)
Definition exit_code_of (r : outcome json) : cli_outcome Z :=
  match r with
  | Return _ => Done 0%Z
  | Raise _ => Done 1%Z
  | OutOfFuel => NoFuel
  end.

(** The state [main] starts in. *)
Definition initial_state (w : world) : cli_state :=
  {| world_of := w; console := []; sdk_var := None |}.

End Cli.

(** ** Concrete runs of the command line and of the edge cases *)

Module CliRuns.

Import Scenario Runs Cli.

Definition cli_env_of (E : env) : cli_env :=
  {| sdk_env := E;
     from_env := fun _ => inl (ValueError "EKACARE_CLIENT_ID is not set");
     json_dumps := fun _ => "{...}";
     repr_str := fun s => "'" +:+ s +:+ "'";
     type_error_text := "";
     unbound_text := fun name => name |}.

(** [--client-id id --client-secret secret --file report.jpg] *)
Definition args_wait : args :=
  {| client_id := Some "id";
     client_secret := Some "secret";
     base_url := "https://api.eka.care";
     file := Some "report.jpg";
     task := "smart";
     doc_type := "lr";
     no_wait := false;
     poll_interval := 10;
     timeout := 300;
     verbose := false;
     quiet := false;
     json_flag := false |}.

(** The same with [--no-wait]. *)
Definition args_no_wait : args :=
  {| client_id := Some "id";
     client_secret := Some "secret";
     base_url := "https://api.eka.care";
     file := Some "report.jpg";
     task := "smart";
     doc_type := "lr";
     no_wait := true;
     poll_interval := 10;
     timeout := 300;
     verbose := false;
     quiet := false;
     json_flag := false |}.

(** No credentials on the command line, none in the environment. *)
Definition args_no_credentials : args :=
  {| client_id := None;
     client_secret := None;
     base_url := "https://api.eka.care";
     file := Some "report.jpg";
     task := "smart";
     doc_type := "lr";
     no_wait := false;
     poll_interval := 10;
     timeout := 300;
     verbose := false;
     quiet := false;
     json_flag := false |}.

(** Login, upload, one pending poll, then the completed payload. *)
Definition E_cli : env :=
  env_of (scripted [token_reply; submitted; ok pending_payload;
                    ok completed_payload] (ok pending_payload)).

(** The login is refused. *)
Definition E_login_refused : env :=
  env_of (scripted [Response 401 None] (ok pending_payload)).

(** The login answers with a JSON array. *)
Definition E_login_array : env :=
  env_of (scripted [ok (JArray [])] (ok pending_payload)).

(** A failed document reported with [data: null]. *)
Definition null_data_payload : json :=
  obj [("status", JString "failed"); ("data", JNull)].

Definition E_null_data : env :=
  env_of (scripted [submitted; ok null_data_payload] (ok pending_payload)).

(** The first result fetch is answered with status 500. *)
Definition E_fetch_500 : env :=
  env_of (scripted [submitted; Response 500 (Some completed_payload)]
            (ok pending_payload)).

(** [output] without [fhir]. *)
Definition output_only : gmap string json :=
  {["data" := obj [("output", JString "o")]]}.

End CliRuns.

(** * The example script: [usage_examples.py] *)

Module UsageExamples.

Import Cli.





End UsageExamples.

(** * Properties *)

(** ** Traces *)

Lemma requests_of_app tr1 tr2 :
  requests_of (tr1 ++ tr2) = requests_of tr1 ++ requests_of tr2.
Proof.
  induction tr1 as [|[] tr1 IH]; simpl; by rewrite ?IH.
Qed.

(** ** Running the loop *)

Section LoopRuns.

Context (E : env) (self : sdk) (document_id : json).
Context (poll_interval timeout : Z) (start_time : Q).

Lemma get_document_result_run w :
  let req := result_request E self document_id in
  let sr := server E (length (filter is_http (trace w))) req in
  get_document_result E self document_id w =
    (decode_reply sr.2, advance sr.1 (log (EvHttp req sr.2) w)).
Proof.
  intros req sr. subst sr req.
  unfold get_document_result, bind, session_request, result_request.
  destruct (server E _ _) as [d [msg|st p]]; simpl; [done|].
  unfold raise_for_status; simpl. destruct (error_status st); simpl; [done|].
  unfold response_json; simpl. by destruct p.
Qed.

Lemma inspect_run {A} (p : json) (k : M A) (h : json -> M A) w :
  (let* data := py_get p "data" (JObject ∅) in
   let* complete := check_complete data in
   if complete then h p
   else
     let* status := py_get p "status" JNull in
     if py_eq_str status "failed" then raise ProcessingFailedError
     else k) w
  = match inspect p with
    | Complete => h p w
    | Failed => (Raise ProcessingFailedError, w)
    | Pending => k w
    | Broken e => (Raise e, w)
    end.
Proof.
  unfold inspect, bind, py_get, check_complete, bind, py_get, ret, raise.
  destruct p; try done.
  destruct (default (JObject ∅) (o !! "data")) as [| | | | | |d]; try done.
  destruct (py_truthy (default JNull (d !! "fhir"))); simpl;
    [destruct (py_truthy (default JNull (d !! "output"))); simpl|];
    try done; by destruct (py_eq_str _ _).
Qed.

(** One iteration, spelled out on the world. *)
Lemma poll_loop_step fuel w :
  poll_loop E (S fuel) self document_id poll_interval timeout start_time w =
    let w1 := log (EvClock (now w)) w in
    if negb (Qle_bool (now w - start_time) (inject_Z timeout)) then
      (Raise (timeout_error timeout), w1)
    else
      let req := result_request E self document_id in
      let sr := server E (length (filter is_http (trace w1))) req in
      let w2 := advance sr.1 (log (EvHttp req sr.2) w1) in
      match decode_reply sr.2 with
      | Return p =>
          match inspect p with
          | Complete => (Return p, w2)
          | Failed => (Raise ProcessingFailedError, w2)
          | Broken e => (Raise e, w2)
          | Pending =>
              (let* _ := time_sleep E poll_interval in
               poll_loop E fuel self document_id poll_interval timeout
                 start_time) w2
          end
      | Raise e => (Raise e, w2)
      | OutOfFuel => (OutOfFuel, w2)
      end.
Proof.
  cbn [poll_loop]. unfold bind at 1. unfold time_time.
  destruct (negb _); [done|].
  unfold bind at 1. rewrite get_document_result_run.
  cbv zeta. destruct (decode_reply _); [|done..].
  rewrite (inspect_run a _ ret). by destruct (inspect a).
Qed.

Lemma decode_reply_fuel rep : decode_reply rep <> OutOfFuel.
Proof.
  destruct rep as [|st [j|]]; simpl; [done|..]; by destruct (error_status st).
Qed.

(** Every run of the loop, whatever the fuel, is a [loop_run]. *)
Lemma poll_loop_run fuel w :
  exists new,
    trace (poll_loop E fuel self document_id poll_interval timeout start_time w).2
      = trace w ++ new
    /\ loop_run E self document_id poll_interval timeout start_time new
         (poll_loop E fuel self document_id poll_interval timeout start_time w).1.
Proof.
  revert w. induction fuel as [|fuel IH]; intros w.
  - exists []. simpl. rewrite app_nil_r. split; [done|constructor].
  - rewrite poll_loop_step. cbv zeta.
    destruct (Qle_bool _ _) eqn:Hle; simpl.
    2:{ exists [EvClock (now w)]. split; [done|]. apply run_timeout.
        apply Qnot_le_lt. intros H. apply Qle_bool_iff in H. congruence. }
    apply Qle_bool_iff in Hle.
    set (req := result_request E self document_id).
    set (sr := server E _ req).
    destruct (decode_reply sr.2) as [p|e|] eqn:Hdec; simpl.
    3:{ by apply decode_reply_fuel in Hdec. }
    2:{ exists [EvClock (now w); EvHttp req sr.2]. rewrite <- app_assoc.
        split; [done|]. by apply run_fetch_error. }
    destruct (inspect p) eqn:Hins; simpl.
    + exists [EvClock (now w); EvHttp req sr.2]. rewrite <- app_assoc.
      split; [done|]. by apply run_complete.
    + exists [EvClock (now w); EvHttp req sr.2]. rewrite <- app_assoc.
      split; [done|]. by eapply run_failed.
    + unfold bind, time_sleep. simpl.
      destruct (poll_interval <? 0)%Z eqn:Hpi; simpl.
      * exists [EvClock (now w); EvHttp req sr.2]. rewrite <- app_assoc.
        split; [done|]. eapply run_bad_sleep; eauto. lia.
      * match goal with |- context [poll_loop _ _ _ _ _ _ _ ?w'] =>
          destruct (IH w') as (new & Htr & Hrun) end.
        exists (EvClock (now w) :: EvHttp req sr.2 :: EvSleep poll_interval :: new).
        split.
        { rewrite Htr. simpl. rewrite <- !app_assoc. done. }
        eapply run_again; eauto. lia.
    + exists [EvClock (now w); EvHttp req sr.2]. rewrite <- app_assoc.
      split; [done|]. by eapply run_broken.
Qed.

(** A run that used up its fuel is a prefix of the runs with more
    fuel: they go on from the world it left. *)
Lemma poll_loop_resume n m w w' :
  poll_loop E n self document_id poll_interval timeout start_time w
    = (OutOfFuel, w') ->
  poll_loop E (n + m) self document_id poll_interval timeout start_time w
  = poll_loop E m self document_id poll_interval timeout start_time w'.
Proof.
  revert w. induction n as [|n IH]; intros w.
  - by intros [= <-].
  - change (S n + m)%nat with (S (n + m)). rewrite !poll_loop_step. cbv zeta.
    destruct (negb _); [done|].
    destruct (decode_reply _) as [p|e|] eqn:Hdec; [|done|].
    2:{ by apply decode_reply_fuel in Hdec. }
    destruct (inspect p); try done.
    unfold bind, time_sleep. destruct (poll_interval <? 0)%Z; [done|].
    apply IH.
Qed.

(** An iteration that starts within the deadline fetches, and returns
    the payload when it satisfies the completion condition. *)
Lemma poll_loop_returns_complete fuel w p :
  let req := result_request E self document_id in
  let sr := server E (length (filter is_http (trace w))) req in
  (now w - start_time <= inject_Z timeout)%Q ->
  decode_reply sr.2 = Return p ->
  inspect p = Complete ->
  poll_loop E (S fuel) self document_id poll_interval timeout start_time w
  = (Return p,
     advance sr.1 (log (EvHttp req sr.2) (log (EvClock (now w)) w))).
Proof.
  intros req sr Hle Hdec Hc. rewrite poll_loop_step. cbv zeta.
  apply Qle_bool_iff in Hle. rewrite Hle. simpl. fold req.
  change (length (filter is_http (trace w ++ [EvClock (now w)])))
    with (length (filter is_http (trace (log (EvClock (now w)) w)))).
  assert (Hk : length (filter is_http (trace (log (EvClock (now w)) w)))
               = length (filter is_http (trace w))).
  { simpl. by rewrite filter_app, length_app, Nat.add_0_r. }
  rewrite Hk. fold sr. by rewrite Hdec, Hc.
Qed.

End LoopRuns.

(** ** Submitting a document *)

Section Submission.

Context (E : env) (self : sdk).

(** [process_document], spelled out on the world: the two validations,
    then the attempt to open the file, then one exchange. *)
Lemma process_document_run file_path doc_type task w :
  process_document E self file_path doc_type task w =
    if negb (path_exists E file_path) then
      (Raise (FileNotFoundError ("File not found: " +:+ file_path)), w)
    else if negb (bool_decide (task ∈ valid_tasks)) then
      (Raise (ValueError "Invalid task. Must be one of: smart, pii, both"), w)
    else
      match fs E file_path with
      | Absent => (Raise (FileNotFoundError file_path), w)
      | Unopenable msg => (Raise (OSError msg), w)
      | RegularFile c =>
          let req := upload_request E self file_path doc_type task c in
          let sr := server E (length (filter is_http (trace w))) req in
          (decode_reply sr.2, advance sr.1 (log (EvHttp req sr.2) w))
      end.
Proof.
  unfold process_document.
  destruct (negb (path_exists E file_path)); [done|].
  destruct (negb (bool_decide (task ∈ valid_tasks))); [done|].
  unfold bind at 1, open_rb.
  destruct (fs E file_path) as [|c|msg]; try done.
  unfold ret, bind, session_request, upload_request. cbv zeta.
  destruct (server E _ _) as [d [msg|st p]]; simpl; [done|].
  unfold raise_for_status; simpl. destruct (error_status st); simpl; [done|].
  unfold response_json; simpl. by destruct p.
Qed.

Lemma fetched_payloads_upload file_path doc_type task c rep tr :
  fetched_payloads (EvHttp (upload_request E self file_path doc_type task c) rep :: tr)
  = fetched_payloads tr.
Proof. by destruct rep as [|st [p|]]. Qed.

(** [process_and_wait] either stops before the loop, having fetched no
    result, or enters the loop with the identifier the submission
    response carries and the clock value read at that moment. *)
Lemma process_and_wait_run fuel file_path task poll_interval timeout w :
  let run := process_and_wait E fuel self file_path task poll_interval timeout w in
  (exists e new, run.1 = Raise e /\ trace run.2 = trace w ++ new
                 /\ (new = []
                     \/ exists c rep,
                          new = [EvHttp (upload_request E self file_path "lr"
                                           task c) rep]))
  \/ (exists c rep sub id t0 new,
        fs E file_path = RegularFile c
        /\ decode_reply rep = Return sub
        /\ field sub "document_id" = Some id
        /\ trace run.2 =
             trace w ++ EvHttp (upload_request E self file_path "lr" task c) rep
                     :: EvClock t0 :: new
        /\ loop_run E self id poll_interval timeout t0 new run.1).
Proof.
  intros run. subst run. unfold process_and_wait, bind.
  rewrite process_document_run.
  destruct (negb (path_exists E file_path)).
  { left. eexists _, []. simpl. rewrite app_nil_r. eauto. }
  destruct (negb (bool_decide (task ∈ valid_tasks))).
  { left. eexists _, []. simpl. rewrite app_nil_r. eauto. }
  destruct (fs E file_path) as [|c|msg] eqn:Hfs.
  { left. eexists _, []. simpl. rewrite app_nil_r. eauto. }
  2:{ left. eexists _, []. simpl. rewrite app_nil_r. eauto. }
  cbv zeta.
  set (req := upload_request E self file_path "lr" task c).
  set (sr := server E _ req).
  destruct (decode_reply sr.2) as [sub|e|] eqn:Hdec.
  3:{ by apply decode_reply_fuel in Hdec. }
  2:{ left. eexists _, [EvHttp req sr.2]. split_and!; [done..|eauto]. }
  unfold py_getitem.
  destruct sub as [| | | | | |o];
    try (left; eexists _, [EvHttp req sr.2]; split_and!; [done..|by eauto]).
  destruct (o !! "document_id") as [id|] eqn:Hid;
    [|left; eexists _, [EvHttp req sr.2]; split_and!; [done..|by eauto]].
  unfold ret, time_time.
  match goal with |- context [poll_loop _ _ _ ?i _ _ ?s ?w'] =>
    destruct (poll_loop_run E self i poll_interval timeout s fuel w')
      as (new & Htr & Hrun) end.
  right. exists c, sr.2, (JObject o), id. eexists _, new.
  split; [done|]. split; [done|]. split; [done|]. split; [|exact Hrun].
  rewrite Htr. simpl. by rewrite <- !app_assoc.
Qed.

End Submission.

(** ** What the loop concludes from the payloads it fetches *)

Lemma inspect_complete_iff p :
  inspect p = Complete <-> completion_condition p = true.
Proof.
  unfold inspect, completion_condition, nonempty_field, field.
  destruct p as [| | | | | |o]; try done.
  destruct (o !! "data") as [[| | | | | |d]|]; simpl; try done.
  - destruct (d !! "fhir") as [f|], (d !! "output") as [out|]; simpl;
      try destruct (py_truthy f); try destruct (py_truthy out); simpl;
      try done; by destruct (py_eq_str _ _).
  - rewrite lookup_empty. simpl. by destruct (py_eq_str _ _).
Qed.

Lemma inspect_failed_iff p :
  inspect p = Failed <->
  result_shape p = true /\ completion_condition p = false
  /\ status_failed p = true.
Proof.
  unfold inspect, completion_condition, nonempty_field, field, result_shape,
    status_failed, field.
  destruct p as [| | | | | |o]; try intuition congruence.
  destruct (o !! "data") as [[| | | | | |d]|]; simpl; try intuition congruence.
  - destruct (o !! "status") as [st|]; simpl;
    destruct (d !! "fhir") as [f|], (d !! "output") as [out|]; simpl;
      try destruct (py_truthy f); try destruct (py_truthy out); simpl;
      try destruct (py_eq_str _ _); intuition congruence.
  - rewrite lookup_empty. simpl.
    destruct (o !! "status") as [st|]; simpl;
      try destruct (py_eq_str _ _); intuition congruence.
Qed.

Lemma inspect_pending_iff p :
  inspect p = Pending <->
  result_shape p = true /\ completion_condition p = false
  /\ status_failed p = false.
Proof.
  unfold inspect, completion_condition, nonempty_field, field, result_shape,
    status_failed, field.
  destruct p as [| | | | | |o]; try intuition congruence.
  destruct (o !! "data") as [[| | | | | |d]|]; simpl; try intuition congruence.
  - destruct (o !! "status") as [st|]; simpl;
    destruct (d !! "fhir") as [f|], (d !! "output") as [out|]; simpl;
      try destruct (py_truthy f); try destruct (py_truthy out); simpl;
      try destruct (py_eq_str _ _); intuition congruence.
  - rewrite lookup_empty. simpl.
    destruct (o !! "status") as [st|]; simpl;
      try destruct (py_eq_str _ _); intuition congruence.
Qed.

(** The completion condition does not read the [status] field. *)
Lemma completion_condition_status o s :
  completion_condition (JObject (<["status" := s]> o))
  = completion_condition (JObject (delete "status" o)).
Proof.
  unfold completion_condition, field.
  by rewrite lookup_insert_ne, lookup_delete_ne.
Qed.

Section Payloads.

Context (E : env) (self : sdk) (document_id : json).
Context (poll_interval timeout : Z) (start_time : Q).

Lemma fetched_payloads_result rep tr :
  fetched_payloads (EvHttp (result_request E self document_id) rep :: tr)
  = match decode_reply rep with
    | Return p => p :: fetched_payloads tr
    | _ => fetched_payloads tr
    end.
Proof.
  destruct rep as [|st [p|]]; simpl; try done; by destruct (error_status st).
Qed.

(** The payloads of a run: pending ones, then at most one that ends
    the run, on which the outcome depends. *)
Lemma loop_run_payloads new r :
  loop_run E self document_id poll_interval timeout start_time new r ->
  exists pend fin,
    fetched_payloads new = pend ++ fin
    /\ Forall (fun p => inspect p = Pending) pend
    /\ match fin with
       | [] => forall p, r <> Return p
       | [p] =>
           match inspect p with
           | Complete => r = Return p
           | Failed => r = Raise ProcessingFailedError
           | Broken e => r = Raise e
           | Pending => r = Raise (ValueError "sleep length must be non-negative")
           end
       | _ => False
       end.
Proof.
  induction 1 as [|t Ht|t rep e Ht Hd|t rep p Ht Hd Hi|t rep p Ht Hd Hi
                  |t rep p e Ht Hd Hi|t rep p Ht Hd Hi Hpi
                  |t rep p rest r Ht Hd Hi Hpi Hrun IH];
    try change (fetched_payloads (EvClock ?t' :: ?tr)) with (fetched_payloads tr);
    rewrite ?fetched_payloads_result, ?Hd;
    try change (fetched_payloads (EvSleep ?s' :: ?tr)) with (fetched_payloads tr);
    try change (fetched_payloads []) with (@nil json).
  1-3: exists [], []; split_and!; [done|by apply List.Forall_nil|done].
  1-4: exists [], [p]; rewrite Hi; split_and!; [done|by apply List.Forall_nil|done].
  - destruct IH as (pend & fin & Heq & Hpend & Hfin).
    exists (p :: pend), fin. rewrite Heq. split; [done|]. split; [|done].
    by constructor.
Qed.

End Payloads.

Section Completion.

Context (E : env) (self : sdk).

Lemma loop_run_completed document_id poll_interval timeout start_time new r :
  loop_run E self document_id poll_interval timeout start_time new r ->
  ((exists p, r = Return p)
   <-> Exists (fun p => completion_condition p = true) (fetched_payloads new))
  /\ (forall p, r = Return p ->
        last (fetched_payloads new) = Some p /\ completion_condition p = true).
Proof.
  intros Hrun. apply loop_run_payloads in Hrun.
  destruct Hrun as (pend & fin & -> & Hpend & Hfin).
  assert (Hno : ~ Exists (fun p => completion_condition p = true) pend).
  { intros Hex. apply Exists_exists in Hex as (q & Hq & Hc).
    rewrite Forall_forall in Hpend. specialize (Hpend q Hq).
    apply inspect_complete_iff in Hc. congruence. }
  destruct fin as [|q [|q' fin]]; [| |done].
  - rewrite app_nil_r. split.
    + split; [intros [p Hp]; by destruct (Hfin p)|done].
    + intros p Hp. by destruct (Hfin p).
  - destruct (inspect q) eqn:Hq; subst r.
    + apply inspect_complete_iff in Hq. split.
      * split; [intros _|by eauto].
        apply Exists_app. right. by constructor.
      * intros p [= <-]. by rewrite last_snoc.
    + split; [split; [by intros [p Hp]|]|done].
      intros [?|Hex]%Exists_app; [done|].
      apply Exists_cons in Hex as [Hc|Hex]; [|by apply Exists_nil in Hex].
      apply inspect_complete_iff in Hc. congruence.
    + split; [split; [by intros [p Hp]|]|done].
      intros [?|Hex]%Exists_app; [done|].
      apply Exists_cons in Hex as [Hc|Hex]; [|by apply Exists_nil in Hex].
      apply inspect_complete_iff in Hc. congruence.
    + split; [split; [by intros [p Hp]|]|done].
      intros [?|Hex]%Exists_app; [done|].
      apply Exists_cons in Hex as [Hc|Hex]; [|by apply Exists_nil in Hex].
      apply inspect_complete_iff in Hc. congruence.
Qed.

(** C1: the polling loop ends in the completed state, returning the
    payload it fetched, if and only if one of the payloads it fetched
    has both [data.fhir] and [data.output] non-empty; the returned
    payload is then the last one fetched.  This holds for the loop on
    its own and for [process_and_wait] as a whole, for every amount of
    fuel, and the condition does not depend on the [status] field:
    setting it to any value, or leaving it out, changes nothing.
    The loop does fetch and does return: when [n] iterations have left
    it polling and the next one, started within the deadline, is
    answered with a payload that has both fields non-empty, that
    payload is what the loop returns, and its fetch is the last event;
    [process_and_wait] is that loop, entered with the identifier of
    the submission response and the clock reading taken then. *)
Theorem polling_completed_iff_fhir_and_output :
  (forall fuel document_id poll_interval timeout start_time w,
     let run := poll_loop E fuel self document_id poll_interval timeout
                  start_time w in
     exists new,
       trace run.2 = trace w ++ new
       /\ ((exists p, run.1 = Return p)
           <-> Exists (fun p => completion_condition p = true)
                 (fetched_payloads new))
       /\ (forall p, run.1 = Return p ->
             last (fetched_payloads new) = Some p
             /\ completion_condition p = true))
  /\ (forall fuel file_path task poll_interval timeout w,
        let run := process_and_wait E fuel self file_path task poll_interval
                     timeout w in
        exists new,
          trace run.2 = trace w ++ new
          /\ ((exists p, run.1 = Return p)
              <-> Exists (fun p => completion_condition p = true)
                    (fetched_payloads new))
          /\ (forall p, run.1 = Return p ->
                last (fetched_payloads new) = Some p
                /\ completion_condition p = true))
  /\ (forall o s,
        completion_condition (JObject (<["status" := s]> o))
        = completion_condition (JObject (delete "status" o)))
  /\ (forall n fuel document_id poll_interval timeout start_time w w' p,
        poll_loop E n self document_id poll_interval timeout start_time w
          = (OutOfFuel, w') ->
        (now w' - start_time <= inject_Z timeout)%Q ->
        let req := result_request E self document_id in
        let rep := (server E (length (filter is_http (trace w'))) req).2 in
        decode_reply rep = Return p ->
        completion_condition p = true ->
        let run := poll_loop E (n + S fuel) self document_id poll_interval
                     timeout start_time w in
        run.1 = Return p
        /\ trace run.2 = trace w' ++ [EvClock (now w'); EvHttp req rep])
  /\ (forall fuel file_path task poll_interval timeout w sub document_id,
        let submission := process_document E self file_path "lr" task w in
        submission.1 = Return sub ->
        field sub "document_id" = Some document_id ->
        process_and_wait E fuel self file_path task poll_interval timeout w
        = poll_loop E fuel self document_id poll_interval timeout
            (now submission.2) (log (EvClock (now submission.2)) submission.2)).
Proof.
  split_and!.
  - intros fuel document_id poll_interval timeout start_time w run.
    destruct (poll_loop_run E self document_id poll_interval timeout
                start_time fuel w) as (new & Htr & Hrun).
    exists new. split; [done|]. by eapply loop_run_completed.
  - intros fuel file_path task poll_interval timeout w run.
    destruct (process_and_wait_run E self fuel file_path task poll_interval
                timeout w)
      as [(e & new & Hr & Htr & Hnew)
         |(c & rep & sub & id & t0 & new & _ & _ & _ & Htr & Hrun)];
      fold run in Hr || fold run in Hrun; fold run in Htr.
    + assert (Hnone : fetched_payloads new = []).
      { destruct Hnew as [->|(c & rep & ->)]; [done|].
        apply fetched_payloads_upload. }
      exists new. rewrite Hr, Hnone. split; [done|]. split; [|done].
      split; [by intros [p Hp]|by intros Hex%Exists_nil].
    + eexists. split; [exact Htr|].
      rewrite fetched_payloads_upload.
      change (fetched_payloads (EvClock t0 :: new)) with (fetched_payloads new).
      by eapply loop_run_completed.
  - apply completion_condition_status.
  - intros n fuel document_id poll_interval timeout start_time w w' p
      Hn Hle req rep Hdec Hc run. subst run.
    rewrite (poll_loop_resume _ _ _ _ _ _ _ _ _ _ Hn).
    apply inspect_complete_iff in Hc.
    rewrite (poll_loop_returns_complete _ _ _ _ _ _ _ _ _ Hle Hdec Hc).
    simpl. split; [done|]. by rewrite <- app_assoc.
  - intros fuel file_path task poll_interval timeout w sub document_id
      submission Hsub Hid.
    unfold process_and_wait, bind. fold submission.
    destruct submission as [r w1]. simpl in Hsub. subst r. simpl.
    destruct sub as [| | | | | |o]; try done. simpl in Hid.
    unfold py_getitem. by rewrite Hid.
Qed.

End Completion.

(** ** Submission: validation and the query string *)

Section SubmissionProperties.

Context (E : env) (self : sdk).

Lemma decode_reply_raise rep e :
  decode_reply rep = Raise e -> exists why, e = RequestException why.
Proof.
  destruct rep as [msg|st [j|]]; simpl; [|destruct (error_status st)..];
    intros [= <-]; eauto.
Qed.

(** For a readable file and a valid task, the call is exactly one
    exchange: the upload request, whose decoded reply is the outcome. *)
Lemma process_document_sends file_path doc_type task content w :
  fs E file_path = RegularFile content ->
  task ∈ valid_tasks ->
  let req := upload_request E self file_path doc_type task content in
  let sr := server E (length (filter is_http (trace w))) req in
  process_document E self file_path doc_type task w
  = (decode_reply sr.2, advance sr.1 (log (EvHttp req sr.2) w)).
Proof.
  intros Hfs Htask. rewrite process_document_run.
  unfold path_exists. rewrite Hfs. simpl.
  by rewrite bool_decide_true.
Qed.

(** C2: submitting an existing, readable file with a valid task sends
    exactly one request; its query string carries, for task ["both"],
    exactly the two task entries ["smart"] and ["pii"] in that order
    and no entry with the value ["both"], and for ["smart"] or ["pii"]
    exactly one task entry, with that value. *)
Theorem task_both_sent_as_smart_and_pii file_path doc_type task content w :
  fs E file_path = RegularFile content ->
  task ∈ valid_tasks ->
  let run := process_document E self file_path doc_type task w in
  exists req rep,
    trace run.2 = trace w ++ [EvHttp req rep]
    /\ req = upload_request E self file_path doc_type task content
    /\ (task = "both" ->
        param_values "task" (req_params req) = ["smart"; "pii"]
        /\ "both" ∉ param_values "task" (req_params req))
    /\ (task = "smart" \/ task = "pii" ->
        param_values "task" (req_params req) = [task]).
Proof.
  intros Hfs Htask run. subst run.
  rewrite (process_document_sends _ _ _ _ _ Hfs Htask). simpl.
  eexists _, _. split; [done|]. split; [done|]. split.
  - intros ->. unfold param_values. simpl. split; [done|].
    intros Hin. repeat (apply elem_of_cons in Hin as [Hin|Hin]; [done|]).
    by apply elem_of_nil in Hin.
  - by intros [-> | ->].
Qed.

(** C10: the document type is not validated.  Whatever string it is,
    submitting a readable file with a valid task raises neither
    validation error and sends the upload request, whose only [dt]
    entry is that string, unchanged. *)
Theorem doc_type_forwarded_unvalidated file_path doc_type task content w :
  fs E file_path = RegularFile content ->
  task ∈ valid_tasks ->
  let run := process_document E self file_path doc_type task w in
  (forall msg, run.1 <> Raise (ValueError msg))
  /\ (forall msg, run.1 <> Raise (FileNotFoundError msg))
  /\ exists req rep,
       trace run.2 = trace w ++ [EvHttp req rep]
       /\ req_method req = POST
       /\ param_values "dt" (req_params req) = [doc_type]
       /\ run.1 = decode_reply rep.
Proof.
  intros Hfs Htask run. subst run.
  rewrite (process_document_sends _ _ _ _ _ Hfs Htask). simpl.
  split_and!.
  - intros msg Hr. by apply decode_reply_raise in Hr as [why ?].
  - intros msg Hr. by apply decode_reply_raise in Hr as [why ?].
  - eexists _, _. split_and!; try done.
    unfold param_values. simpl. by destruct (String.eqb task "both").
Qed.

(** C3, as the code has it: an invalid task makes [process_document]
    fail before any network call, leaving the world untouched; the
    error is the task's [ValueError] when the path exists, and the
    [FileNotFoundError] of the earlier check when it does not. *)
Theorem invalid_task_rejected_before_network file_path doc_type task w :
  task ∉ valid_tasks ->
  process_document E self file_path doc_type task w
  = (Raise (if path_exists E file_path
            then ValueError "Invalid task. Must be one of: smart, pii, both"
            else FileNotFoundError ("File not found: " +:+ file_path)),
     w).
Proof.
  intros Htask. rewrite process_document_run.
  destruct (path_exists E file_path); simpl; [|done].
  by rewrite bool_decide_false.
Qed.

End SubmissionProperties.

(** ** Fetching a result *)

Section Fetching.

Context (E : env) (self : sdk).

(** C7: when the exchange succeeds (a response arrives, its status is
    not an error status, its body decodes), [get_document_result]
    returns the decoded payload itself, whatever it is: the value the
    caller gets is the value the server sent, with every field it had.
    Conversely a returned payload is always the body of the reply. *)
Theorem get_document_result_returns_payload_unchanged document_id w st p :
  let req := result_request E self document_id in
  (server E (length (filter is_http (trace w))) req).2 = Response st (Some p) ->
  error_status st = false ->
  let run := get_document_result E self document_id w in
  run.1 = Return p
  /\ trace run.2 = trace w ++ [EvHttp req (Response st (Some p))]
  /\ (forall q, run.1 = Return q -> q = p).
Proof.
  intros req Hrep Hst run. subst run req.
  rewrite get_document_result_run. cbv zeta. rewrite Hrep. simpl.
  rewrite Hst. split_and!; [done..|]. by intros q [= <-].
Qed.

(** C9: nothing in [process_document] looks for ["document_id"].  If
    the upload succeeds with a decoded object that lacks the key, the
    direct call returns that object without error, while
    [process_and_wait] raises [KeyError] right after the upload: the
    upload is the only exchange of the run, no result is fetched. *)
Theorem missing_document_id_is_a_KeyError
    fuel file_path task poll_interval timeout content o w :
  fs E file_path = RegularFile content ->
  task ∈ valid_tasks ->
  let req := upload_request E self file_path "lr" task content in
  let rep := (server E (length (filter is_http (trace w))) req).2 in
  decode_reply rep = Return (JObject o) ->
  o !! "document_id" = None ->
  (process_document E self file_path "lr" task w).1 = Return (JObject o)
  /\ let run := process_and_wait E fuel self file_path task poll_interval
                  timeout w in
     run.1 = Raise (KeyError "document_id")
     /\ trace run.2 = trace w ++ [EvHttp req rep]
     /\ requests_of (trace run.2) = requests_of (trace w) ++ [req].
Proof.
  intros Hfs Htask req rep Hdec Hkey.
  pose proof (process_document_sends E self _ "lr" _ _ w Hfs Htask) as Hrun.
  cbv zeta in Hrun. fold req in Hrun. fold rep in Hrun.
  rewrite Hrun, Hdec. split; [done|].
  unfold process_and_wait, bind. rewrite Hrun, Hdec. simpl. rewrite Hkey.
  simpl. split_and!; [done..|]. by rewrite requests_of_app.
Qed.

End Fetching.

(** ** Authentication *)

Section Authentication.

Context (E : env).

(** Construction, spelled out on the world. *)
Lemma init_run client_id client_secret base_url w :
  let req := auth_request E client_id client_secret base_url in
  let sr := server E (length (filter is_http (trace w))) req in
  __init__ E client_id client_secret base_url w =
    (match decode_reply sr.2 with
     | Return (JObject o) =>
         match o !! "access_token" with
         | Some token =>
             Return {| EkaCareSDK.client_id := client_id;
                       EkaCareSDK.client_secret := client_secret;
                       base_url := rstrip "/"%char base_url;
                       _bearer_token := Some token;
                       _session :=
                         {| headers :=
                              <["Authorization" := "Bearer " +:+ py_format E token]>
                                (default_headers E) |} |}
         | None =>
             Raise (PyException
                      "Access token not found in authentication response")
         end
     | Return _ => Raise TypeError
     | Raise (RequestException why) =>
         Raise (PyException ("Authentication failed: " +:+ failure_text E why))
     | Raise e => Raise e
     | OutOfFuel => OutOfFuel
     end,
     advance sr.1 (log (EvHttp req sr.2) w)).
Proof.
  intros req sr. subst sr req.
  unfold __init__, _authenticate, try_except, bind, session_request,
    auth_request. simpl.
  destruct (server E _ _) as [d [msg|st p]]; simpl; [done|].
  unfold raise_for_status; simpl. destruct (error_status st); simpl; [done|].
  unfold response_json; simpl. destruct p as [j|]; simpl; [|done].
  unfold py_getitem.
  destruct j as [| | | | | |o]; simpl; try done.
  by destruct (o !! "access_token").
Qed.

Section Requests.

Context (self : sdk).





Context (v : string).
Hypothesis Hv : headers (_session self) !! "Authorization" = Some v.





End Requests.


End Authentication.

(** ** The order of the steps in one iteration *)

Section Order.

Context (E : env) (self : sdk) (document_id : json).
Context (poll_interval timeout : Z) (start_time : Q).

(** The order of the events in the trace of a run. *)
Lemma loop_run_order new r :
  loop_run E self document_id poll_interval timeout start_time new r ->
  (forall pre req rep post,
     new = pre ++ EvHttp req rep :: post ->
     exists pre' t,
       pre = pre' ++ [EvClock t] /\ (t - start_time <= inject_Z timeout)%Q)
  /\ (forall pre t post,
        new = pre ++ EvClock t :: post ->
        (inject_Z timeout < t - start_time)%Q ->
        post = [] /\ r = Raise (timeout_error timeout))
  /\ (forall pre secs post,
        new = pre ++ EvSleep secs :: post ->
        exists pre' req rep, pre = pre' ++ [EvHttp req rep]).
Proof.
  induction 1 as [|t Ht|t rep e Ht Hd|t rep p Ht Hd Hi|t rep p Ht Hd Hi
                  |t rep p e Ht Hd Hi|t rep p Ht Hd Hi Hpi
                  |t rep p rest r Ht Hd Hi Hpi Hrun (IH1 & IH2 & IH3)].
  1: { split_and!; intros [|? ?]; intros; simpl in *; simplify_eq. }
  1: { split_and!; intros [|? [|? ?]]; intros; simpl in *; simplify_eq; done. }
  1-5: split_and!; intros [|? [|? [|? ?]]]; intros; simpl in *; simplify_eq;
       try (by apply Qlt_not_le in Ht); try done; by exists [], t.
  split_and!.
  - intros [|? [|? [|? pre]]] req rep' post Heq; simpl in *; simplify_eq.
    + by exists [], t.
    + destruct (IH1 _ _ _ _ eq_refl) as (pre' & t' & -> & Ht').
      by exists (EvClock t :: EvHttp (result_request E self document_id) rep
                   :: EvSleep poll_interval :: pre'), t'.
  - intros [|? [|? [|? pre]]] t' post Heq Hlt; simpl in *; simplify_eq.
    + by apply Qlt_not_le in Hlt.
    + by apply (IH2 _ _ _ eq_refl).
  - intros [|? [|? [|? pre]]] secs post Heq; simpl in *; simplify_eq.
    + by exists [EvClock t], (result_request E self document_id), rep.
    + destruct (IH3 _ _ _ eq_refl) as (pre' & req & rep' & ->).
      by exists (EvClock t :: EvHttp (result_request E self document_id) rep
                   :: EvSleep poll_interval :: pre'), req, rep'.
Qed.

(** C4, as the code has it: every run of the loop is a sequence of
    iterations, each of which first reads the clock and raises
    [TimeoutError] without fetching when the elapsed time exceeds the
    timeout, then fetches the result, then checks completion, then
    the ["failed"] status, and only then sleeps ([loop_run] lists the
    cases in that order).  In the trace, every fetch comes right after
    a clock reading within the deadline, a clock reading past the
    deadline is the last event of the run and makes it a
    [TimeoutError], and every sleep comes right after a fetch.  The
    timeout is thus checked before the fetch of an iteration, not
    after it: a payload whose fetch starts within the deadline and
    that satisfies the completion condition is returned however long
    the exchange takes, and no fetch starts once a clock reading is
    past the deadline. *)
Theorem timeout_is_checked_before_each_fetch :
  (forall fuel w,
     let run := poll_loop E fuel self document_id poll_interval timeout
                  start_time w in
     exists new,
       trace run.2 = trace w ++ new
       /\ loop_run E self document_id poll_interval timeout start_time new run.1
       /\ (forall pre req rep post,
             new = pre ++ EvHttp req rep :: post ->
             exists pre' t,
               pre = pre' ++ [EvClock t]
               /\ (t - start_time <= inject_Z timeout)%Q)
       /\ (forall pre t post,
             new = pre ++ EvClock t :: post ->
             (inject_Z timeout < t - start_time)%Q ->
             post = [] /\ run.1 = Raise (timeout_error timeout))
       /\ (forall pre secs post,
             new = pre ++ EvSleep secs :: post ->
             exists pre' req rep, pre = pre' ++ [EvHttp req rep]))
  /\ (forall fuel w,
        let req := result_request E self document_id in
        let sr := server E (length (filter is_http (trace w))) req in
        let run := poll_loop E (S fuel) self document_id poll_interval timeout
                     start_time w in
        ((now w - start_time <= inject_Z timeout)%Q ->
         forall p, decode_reply sr.2 = Return p ->
                   completion_condition p = true ->
                   run.1 = Return p
                   /\ trace run.2 = trace w ++ [EvClock (now w); EvHttp req sr.2])
        /\ ((inject_Z timeout < now w - start_time)%Q ->
            run.1 = Raise (timeout_error timeout)
            /\ trace run.2 = trace w ++ [EvClock (now w)])).
Proof.
  split.
  - intros fuel w run.
    destruct (poll_loop_run E self document_id poll_interval timeout
                start_time fuel w) as (new & Htr & Hrun).
    exists new. split; [done|]. split; [done|]. by apply loop_run_order.
  - intros fuel w req sr run. subst run. rewrite poll_loop_step. cbv zeta.
    split.
    + intros Hle p Hdec Hc. apply Qle_bool_iff in Hle. rewrite Hle. simpl.
      fold req. change (length (filter is_http (trace w ++ [EvClock (now w)])))
        with (length (filter is_http (trace (log (EvClock (now w)) w)))).
      assert (Hk : length (filter is_http (trace (log (EvClock (now w)) w)))
                   = length (filter is_http (trace w))).
      { simpl. by rewrite filter_app, length_app, Nat.add_0_r. }
      rewrite Hk. fold sr. rewrite Hdec.
      apply inspect_complete_iff in Hc. rewrite Hc. simpl.
      by rewrite <- app_assoc.
    + intros Hlt.
      destruct (Qle_bool (now w - start_time) (inject_Z timeout)) eqn:Hle;
        simpl; [|done].
      apply Qle_bool_iff in Hle. by apply Qlt_not_le in Hlt.
Qed.

End Order.

(** ** Failure reported by the server *)

Section Failure.

Context (E : env) (self : sdk).

(** A fetched payload with verdict [Failed] ends the run: it is the
    last payload fetched, its fetch is the last event, and the outcome
    is the processing failure. *)
Lemma loop_run_failed document_id poll_interval timeout start_time new r :
  loop_run E self document_id poll_interval timeout start_time new r ->
  forall pre p post,
    fetched_payloads new = pre ++ p :: post ->
    inspect p = Failed ->
    r = Raise ProcessingFailedError
    /\ post = []
    /\ exists evs rep,
         new = evs ++ [EvHttp (result_request E self document_id) rep]
         /\ decode_reply rep = Return p.
Proof.
  induction 1 as [|t Ht|t rep e Ht Hd|t rep q Ht Hd Hi|t rep q Ht Hd Hi
                  |t rep q e Ht Hd Hi|t rep q Ht Hd Hi Hpi
                  |t rep q rest r Ht Hd Hi Hpi Hrun IH];
    intros pre p post;
    try change (fetched_payloads (EvClock ?t' :: ?tr)) with (fetched_payloads tr);
    rewrite ?fetched_payloads_result, ?Hd;
    try change (fetched_payloads (EvSleep ?s' :: ?tr)) with (fetched_payloads tr);
    try change (fetched_payloads []) with (@nil json);
    intros Heq Hp.
  1-3: by destruct pre.
  1-4: destruct pre as [|? [|? ?]]; simpl in *; simplify_eq; try congruence.
  - split_and!; [done..|]. by exists [EvClock t], rep.
  - destruct pre as [|q' pre]; simpl in Heq;
      injection Heq as -> Heq; [congruence|].
    destruct (IH _ _ _ Heq Hp) as (-> & -> & evs & rep' & -> & Hd').
    split_and!; [done..|].
    by exists (EvClock t :: EvHttp (result_request E self document_id) rep
                 :: EvSleep poll_interval :: evs), rep'.
Qed.

(** C6, as the code has it: if [process_and_wait] fetches a payload of
    the result shape (a JSON object whose [data] is absent or an
    object) whose status is ["failed"] and that does not satisfy the
    completion condition, the run raises the processing failure; that
    payload is the last one fetched and its fetch is the last event of
    the run.  (Every payload fetched before it was pending, or the loop
    would have ended there.) *)
Theorem failed_status_ends_polling
    fuel file_path task poll_interval timeout w new pre p post :
  let run := process_and_wait E fuel self file_path task poll_interval
               timeout w in
  trace run.2 = trace w ++ new ->
  fetched_payloads new = pre ++ p :: post ->
  result_shape p = true ->
  status_failed p = true ->
  completion_condition p = false ->
  run.1 = Raise ProcessingFailedError
  /\ post = []
  /\ Forall (fun q => inspect q = Pending) pre
  /\ exists evs req rep,
       new = evs ++ [EvHttp req rep]
       /\ req_method req = GET
       /\ decode_reply rep = Return p.
Proof.
  intros run Htr Hfetched Hshape Hfailed Hnot.
  assert (Hp : inspect p = Failed) by by apply inspect_failed_iff.
  destruct (process_and_wait_run E self fuel file_path task poll_interval
              timeout w)
    as [(e & new' & Hr & Htr' & Hnew)
       |(c & rep & sub & id & t0 & new' & _ & _ & _ & Htr' & Hrun)];
    fold run in Hr || fold run in Hrun; fold run in Htr';
    rewrite Htr in Htr'; apply app_inv_head in Htr'; subst new.
  - destruct Hnew as [->|(c & rep & ->)];
      [|rewrite fetched_payloads_upload in Hfetched]; by destruct pre.
  - rewrite fetched_payloads_upload in Hfetched.
    change (fetched_payloads (EvClock t0 :: new')) with (fetched_payloads new')
      in Hfetched.
    destruct (loop_run_failed _ _ _ _ _ _ Hrun _ _ _ Hfetched Hp)
      as (Hr & -> & evs & rep' & -> & Hd).
    split_and!; [done..| |].
    + apply loop_run_payloads in Hrun as (pend & fin & Heq & Hpend & Hfin).
      rewrite Hfetched in Heq.
      destruct fin as [|q [|q' fin]]; [| |done].
      * rewrite app_nil_r in Heq. subst pend.
        apply Forall_app in Hpend as [_ Hpend].
        apply Forall_cons in Hpend as [Hpend _]. congruence.
      * apply app_inj_tail in Heq as [-> _]. done.
    + eexists (_ :: _ :: evs), _, rep'. by split_and!.
Qed.

End Failure.

(** ** Timeout *)


Lemma inject_Z_ge_1 z : (0 < z)%Z -> (1 <= inject_Z z)%Q.
Proof.
  intros Hz. change 1%Q with (inject_Z 1). rewrite <- Zle_Qle. lia.
Qed.


(** Exchanges and sleeps that take no negative time, with a positive
    poll interval, make every iteration last a second at least. *)
Lemma time_moves_forward_clock_advances E poll_interval :
  time_moves_forward E -> (0 < poll_interval)%Z ->
  clock_advances E poll_interval.
Proof.
  intros [Hd Ho] Hpi. exists 1%Q. split; [done|]. intros k req j.
  pose proof (Hd k req). pose proof (Ho j).
  pose proof (inject_Z_ge_1 _ Hpi). lra.
Qed.

Section Timeout.

Context (E : env) (self : sdk).
Context (poll_interval timeout : Z).



End Timeout.

(** * The properties on concrete runs *)

Module Checks.

Import Scenario Runs.

Lemma bogus_invalid : "bogus" ∉ valid_tasks.
Proof.
  intros H. repeat (apply elem_of_cons in H as [H|H]; [done|]).
  by apply elem_of_nil in H.
Qed.

Lemma smart_valid : "smart" ∈ valid_tasks.
Proof. apply list_elem_of_here. Defined.

Lemma both_valid : "both" ∈ valid_tasks.
Proof. do 2 apply list_elem_of_further. apply list_elem_of_here. Defined.

(** The design's end-to-end scenario: pending, then completed; the
    second payload comes back after exactly one sleep. *)
Example process_and_wait_completes :
  (process_and_wait E_completes 5 client "report.jpg" "smart" 10 300 w0).1
  = Return completed_payload
  /\ filter is_sleep
       (trace (process_and_wait E_completes 5 client "report.jpg" "smart"
                 10 300 w0).2)
     = [EvSleep 10].
Proof. by vm_compute. Qed.

(** Both fields present while the status still says ["pending"]: the
    payload is returned as completed. *)
Example early_payload_is_returned :
  (poll_loop (E_fetch early_payload) 1 client (JString "doc_1") 10 300 0 w0).1
  = Return early_payload.
Proof. by vm_compute. Qed.

(** Status ["completed"] with [output] missing: not returned; the loop
    goes on to sleep and runs out of its single unit of fuel. *)
Example hollow_payload_is_not_returned :
  (poll_loop (E_fetch hollow_payload) 1 client (JString "doc_1") 10 300 0 w0).1
  = OutOfFuel
  /\ completion_condition hollow_payload = false.
Proof. by vm_compute. Qed.

(** The design's timeout scenario, with one second of timeout and of
    poll interval. *)
Example process_and_wait_times_out :
  (process_and_wait E_pending 5 client "report.jpg" "smart" 1 1 w0).1
  = Raise (TimeoutError "Document processing timed out after 1 seconds").
Proof. by vm_compute. Qed.

(** A [data] field that is not an object breaks the inspection before
    the status is looked at. *)
Example null_data_is_an_AttributeError :
  (poll_loop (E_fetch (obj [("status", JString "failed"); ("data", JNull)]))
     1 client (JString "doc_1") 10 300 0 w0).1
  = Raise (AttributeError "NoneType" "get").
Proof. by vm_compute. Qed.

(** *** Instances of the theorems above, and the departures from the design *)

Lemma polling_completed_iff_fhir_and_output_witness :
  (process_and_wait E_completes 5 client "report.jpg" "smart" 10 300 w0).1
    = Return completed_payload
  /\ (poll_loop (E_fetch early_payload) 1 client (JString "doc_1") 10 300 0
        w0).1
     = Return early_payload
  /\ field early_payload "status" = Some (JString "pending")
  /\ field hollow_payload "status" = Some (JString "completed")
  /\ forall p,
       (poll_loop (E_fetch hollow_payload) 1 client (JString "doc_1") 10 300 0
          w0).1
       <> Return p.
Proof.
  split_and!.
  - (* pending, then completed: the second payload is returned *)
    destruct (polling_completed_iff_fhir_and_output E_completes client)
      as (_ & _ & _ & Hreturns & Henters).
    pose (sub := obj [("document_id", JString "doc_1");
                      ("status", JString "queued")]).
    pose (w1 := (process_document E_completes client "report.jpg" "lr" "smart"
                   w0).2).
    pose (w2 := log (EvClock (now w1)) w1).
    pose (w3 := (poll_loop E_completes 1 client (JString "doc_1") 10 300
                   (now w1) w2).2).
    assert (Hsub : (process_document E_completes client "report.jpg" "lr"
                      "smart" w0).1 = Return sub)
      by (vm_compute; reflexivity).
    assert (Hid : field sub "document_id" = Some (JString "doc_1"))
      by (vm_compute; reflexivity).
    assert (Hpolling : poll_loop E_completes 1 client (JString "doc_1") 10 300
                         (now w1) w2 = (OutOfFuel, w3))
      by (vm_compute; reflexivity).
    assert (Hle : (now w3 - now w1 <= inject_Z 300)%Q) by (by vm_compute).
    assert (Hdec : decode_reply
                     (server E_completes (length (filter is_http (trace w3)))
                        (result_request E_completes client (JString "doc_1"))).2
                   = Return completed_payload)
      by (vm_compute; reflexivity).
    assert (Hc : completion_condition completed_payload = true)
      by (vm_compute; reflexivity).
    pose proof (Henters 5%nat "report.jpg" "smart" 10%Z 300%Z w0 sub
                  (JString "doc_1") Hsub Hid) as Heq.
    pose proof (proj1 (Hreturns 1%nat 3%nat (JString "doc_1") 10%Z 300%Z
                         (now w1) w2 w3 completed_payload Hpolling Hle Hdec Hc))
      as Hret.
    exact (eq_trans (f_equal fst Heq) Hret).
  - (* both fields there, status still pending: returned *)
    destruct (polling_completed_iff_fhir_and_output (E_fetch early_payload)
                client) as (_ & _ & _ & Hreturns & _).
    assert (Hle : (now w0 - 0 <= inject_Z 300)%Q) by (by vm_compute).
    exact (proj1 (Hreturns 0%nat 0%nat (JString "doc_1") 10%Z 300%Z 0%Q w0 w0
                    early_payload eq_refl Hle eq_refl eq_refl)).
  - reflexivity.
  - reflexivity.
  - (* status completed, output missing: not returned *)
    intros p Hp.
    destruct (polling_completed_iff_fhir_and_output (E_fetch hollow_payload)
                client) as (Hloop & _).
    destruct (Hloop 1%nat (JString "doc_1") 10%Z 300%Z 0%Q w0)
      as (new & Htr & Hiff & _).
    assert (Hex : Exists (fun p => completion_condition p = true)
                    (fetched_payloads new))
      by (apply Hiff; exists p; exact Hp).
    assert (Hnew : fetched_payloads new = [hollow_payload]).
    { change (trace w0 ++ new) with new in Htr. rewrite <- Htr.
      vm_compute. reflexivity. }
    rewrite Hnew in Hex.
    apply Exists_cons in Hex as [Hc|Hex]; [discriminate Hc|].
    by apply Exists_nil in Hex.
Defined.

Lemma task_both_sent_as_smart_and_pii_witness :
  fs E_completes "report.jpg" = RegularFile jpeg
  /\ "both" ∈ valid_tasks
  /\ exists req rep,
       trace (process_document E_completes client "report.jpg" "lr" "both"
                w0).2
         = trace w0 ++ [EvHttp req rep]
       /\ param_values "task" (req_params req) = ["smart"; "pii"].
Proof.
  split; [reflexivity|]. split; [exact both_valid|].
  destruct (task_both_sent_as_smart_and_pii E_completes client "report.jpg"
              "lr" "both" jpeg w0 eq_refl both_valid)
    as (req & rep & Htr & _ & Hboth & _).
  exists req, rep. split; [exact Htr|]. by apply Hboth.
Defined.

(** C3, as stated, fails when the file is missing: the task ["bogus"]
    is invalid, yet the error is the [FileNotFoundError] of the check
    that comes first, not a [ValueError]. *)
Lemma invalid_task_missing_file_counterexample :
  ("bogus" ∉ valid_tasks)
  /\ process_document E_completes client "missing.jpg" "lr" "bogus" w0
     = (Raise (FileNotFoundError "File not found: missing.jpg"), w0)
  /\ ~ (forall E self file_path doc_type task w,
          task ∉ valid_tasks ->
          exists msg,
            (process_document E self file_path doc_type task w).1
            = Raise (ValueError msg)).
Proof.
  split; [exact bogus_invalid|]. split; [reflexivity|].
  intros H.
  destruct (H E_completes client "missing.jpg" "lr" "bogus" w0 bogus_invalid)
    as [msg Hmsg].
  discriminate Hmsg.
Qed.

Lemma invalid_task_rejected_before_network_witness :
  ("bogus" ∉ valid_tasks)
  /\ process_document E_completes client "report.jpg" "lr" "bogus" w0
     = (Raise (ValueError "Invalid task. Must be one of: smart, pii, both"), w0).
Proof.
  split; [exact bogus_invalid|].
  exact (invalid_task_rejected_before_network E_completes client "report.jpg"
           "lr" "bogus" w0 bogus_invalid).
Defined.

(** C4, as stated, fails once the deadline passes during a sleep.  With
    a timeout of 5 seconds and a poll interval of 10, the first payload
    is pending; after the sleep the code reads the clock, finds 11
    seconds elapsed and raises [TimeoutError] without fetching, having
    fetched the pending payload only.  The order the design gives
    would fetch again first and return the completed payload that the
    server has ready by then. *)
Lemma deadline_passed_during_sleep_counterexample :
  (spec_waiting E_poll 3 client (JString "doc_1") 10 5 0 w0).1
    = Return completed_payload
  /\ (poll_loop E_poll 3 client (JString "doc_1") 10 5 0 w0).1
     = Raise (timeout_error 5)
  /\ fetched_payloads
       (trace (poll_loop E_poll 3 client (JString "doc_1") 10 5 0 w0).2)
     = [pending_payload]
  /\ (process_and_wait E_completes 3 client "report.jpg" "smart" 10 5 w0).1
     = Raise (timeout_error 5)
  /\ fetched_payloads
       (trace (process_and_wait E_completes 3 client "report.jpg" "smart"
                 10 5 w0).2)
     = [pending_payload].
Proof. by vm_compute. Qed.

Lemma timeout_is_checked_before_each_fetch_witness :
  (0 - 0 <= inject_Z 5)%Q
  /\ (poll_loop (E_fetch completed_payload) 1 client (JString "doc_1") 10 5 0
        w0).1
     = Return completed_payload.
Proof.
  assert (Hle : (now w0 - 0 <= inject_Z 5)%Q) by (by vm_compute).
  split; [exact Hle|].
  destruct (timeout_is_checked_before_each_fetch (E_fetch completed_payload)
              client (JString "doc_1") 10 5 0) as (_ & Hstep).
  destruct (Hstep 0%nat w0) as (Hret & _).
  apply (Hret Hle completed_payload); reflexivity.
Defined.






Lemma failed_status_ends_polling_witness :
  result_shape failed_payload = true
  /\ status_failed failed_payload = true
  /\ completion_condition failed_payload = false
  /\ (process_and_wait E_fails 5 client "report.jpg" "smart" 10 300 w0).1
     = Raise ProcessingFailedError.
Proof.
  split; [reflexivity|]. split; [reflexivity|]. split; [reflexivity|].
  refine (proj1 (failed_status_ends_polling E_fails client 5 "report.jpg"
                   "smart" 10 300 w0
                   (trace (process_and_wait E_fails 5 client "report.jpg"
                             "smart" 10 300 w0).2)
                   [pending_payload] failed_payload [] _ _ _ _ _));
    by vm_compute.
Defined.

(** C6, as stated, fails on a failed document reported with
    [data: null].  The second payload fetched has status ["failed"] and
    does not satisfy the completion condition, no payload before it
    does, and yet the run does not raise the processing failure: the
    [AttributeError] of [data.get] on [None] comes first, before the
    status is read. *)
Lemma failed_with_null_data_counterexample :
  status_failed failed_null_payload = true
  /\ completion_condition failed_null_payload = false
  /\ fetched_payloads
       (trace (process_and_wait E_fails_null 5 client "report.jpg" "smart"
                 10 300 w0).2)
     = [pending_payload; failed_null_payload]
  /\ (process_and_wait E_fails_null 5 client "report.jpg" "smart" 10 300 w0).1
     = Raise (AttributeError "NoneType" "get")
  /\ ~ (forall E self fuel file_path task poll_interval timeout w new pre p
               post,
          trace (process_and_wait E fuel self file_path task poll_interval
                   timeout w).2
          = trace w ++ new ->
          fetched_payloads new = pre ++ p :: post ->
          status_failed p = true ->
          completion_condition p = false ->
          (process_and_wait E fuel self file_path task poll_interval
             timeout w).1
          = Raise ProcessingFailedError).
Proof.
  split; [reflexivity|]. split; [reflexivity|].
  split; [vm_compute; reflexivity|]. split; [vm_compute; reflexivity|].
  intros H.
  assert (Hr : (process_and_wait E_fails_null 5 client "report.jpg" "smart"
                  10 300 w0).1
               = Raise ProcessingFailedError).
  { apply (H E_fails_null client 5%nat "report.jpg" "smart" 10%Z 300%Z w0
             (trace (process_and_wait E_fails_null 5 client "report.jpg"
                       "smart" 10 300 w0).2)
             [pending_payload] failed_null_payload []);
      vm_compute; reflexivity. }
  vm_compute in Hr. discriminate Hr.
Qed.

Lemma get_document_result_returns_payload_unchanged_witness :
  error_status 200 = false
  /\ (get_document_result (E_fetch completed_payload) client (JString "doc_1")
        w0).1
     = Return completed_payload
  /\ field completed_payload "extra" = Some (JArray [JInt 1; JNull]).
Proof.
  split; [reflexivity|]. split; [|by vm_compute].
  exact (proj1 (get_document_result_returns_payload_unchanged
                  (E_fetch completed_payload) client (JString "doc_1") w0 200
                  completed_payload eq_refl eq_refl)).
Defined.




Lemma missing_document_id_is_a_KeyError_witness :
  (process_document E_no_id client "report.jpg" "lr" "smart" w0).1
    = Return (obj [("status", JString "queued")])
  /\ (process_and_wait E_no_id 5 client "report.jpg" "smart" 10 300 w0).1
     = Raise (KeyError "document_id").
Proof.
  destruct (missing_document_id_is_a_KeyError E_no_id client 5 "report.jpg"
              "smart" 10 300 jpeg (list_to_map [("status", JString "queued")])
              w0 eq_refl smart_valid eq_refl eq_refl)
    as (Hdirect & Hwait & _).
  split; [exact Hdirect|exact Hwait].
Defined.

Lemma doc_type_forwarded_unvalidated_witness :
  fs E_completes "report.jpg" = RegularFile jpeg
  /\ "smart" ∈ valid_tasks
  /\ exists req rep,
       trace (process_document E_completes client "report.jpg"
                "no such type!" "smart" w0).2
         = trace w0 ++ [EvHttp req rep]
       /\ param_values "dt" (req_params req) = ["no such type!"].
Proof.
  split; [reflexivity|]. split; [exact smart_valid|].
  destruct (doc_type_forwarded_unvalidated E_completes client "report.jpg"
              "no such type!" "smart" jpeg w0 eq_refl smart_valid)
    as (_ & _ & req & rep & Htr & _ & Hdt & _).
  by exists req, rep.
Defined.

End Checks.

(** * Further properties of the SDK *)

(** ** The base URL *)

Lemma rstrip_snoc c s : rstrip c (s +:+ String c EmptyString) = rstrip c s.
Proof.
  induction s as [|a s IH]; simpl.
  - by rewrite Ascii.eqb_refl.
  - by rewrite IH.
Qed.

Lemma rstrip_not_ends_with c s : ~ ends_with c (rstrip c s).
Proof.
  induction s as [|a s IH]; simpl; intros [s' Hs'].
  - by destruct s'.
  - destruct (rstrip c s) as [|b r] eqn:Hr.
    + destruct (Ascii.eqb a c) eqn:Hac; [by destruct s'|].
      apply Ascii.eqb_neq in Hac.
      destruct s' as [|a' [|? ?]]; cbv [String.append] in Hs';
        by simplify_eq.
    + destruct s' as [|a' s']; cbv [String.append] in Hs';
        fold String.append in Hs'; [simplify_eq|].
      injection Hs' as -> Hs'. apply IH. by exists s'.
Qed.

(** X1: trailing slashes of the base URL are dropped at construction.
    Appending a slash to the base URL changes nothing about the run of
    [__init__] (same outcome, same login request, same world), and the
    base URL a constructed client holds never ends with a slash. *)
Theorem base_url_trailing_slash_ignored E client_id client_secret base_url w :
  __init__ E client_id client_secret (base_url +:+ "/") w
  = __init__ E client_id client_secret base_url w
  /\ forall self,
       (__init__ E client_id client_secret base_url w).1 = Return self ->
       ~ ends_with "/" (EkaCareSDK.base_url self).
Proof.
  split.
  - unfold __init__. by rewrite rstrip_snoc.
  - intros self. rewrite init_run. cbv zeta. simpl.
    destruct (decode_reply _) as [[| | | | | |o]|[]|]; try done.
    destruct (o !! "access_token"); [|done].
    intros [= <-]. simpl. apply rstrip_not_ends_with.
Qed.

(** ** Login responses that are not objects *)

(** X2: the two [except] clauses of [_authenticate] catch request
    failures and a missing key only.  When the login succeeds at the
    HTTP level but the body decodes to JSON that is not an object,
    subscripting it raises [TypeError], which leaves [__init__]
    unwrapped: no client is built and the error is not one of the two
    authentication messages. *)
Theorem login_body_not_object_raises_TypeError
    E client_id client_secret base_url w st p :
  let req := auth_request E client_id client_secret base_url in
  (server E (length (filter is_http (trace w))) req).2 = Response st (Some p) ->
  error_status st = false ->
  (forall o, p <> JObject o) ->
  let run := __init__ E client_id client_secret base_url w in
  run.1 = Raise TypeError
  /\ ~ AuthenticationError E TypeError
  /\ trace run.2 = trace w ++ [EvHttp req (Response st (Some p))].
Proof.
  intros req Hrep Hst Hp run. subst run. rewrite init_run. cbv zeta.
  fold req. rewrite Hrep. simpl. rewrite Hst.
  split_and!; [|by intros [[why [=]]|[=]]|done].
  destruct p as [| | | | | |o]; try done. by destruct (Hp o).
Qed.

(** ** Missing files *)

(** X3: a path that does not exist is rejected first.  Whatever the
    document type and the task (valid or not), [process_document]
    raises [FileNotFoundError] naming the path and leaves the world
    untouched, and so does [process_and_wait], for every fuel: nothing
    is sent, the clock is not read. *)
Theorem missing_file_rejected_before_network
    E self fuel file_path doc_type task poll_interval timeout w :
  path_exists E file_path = false ->
  process_document E self file_path doc_type task w
  = (Raise (FileNotFoundError ("File not found: " +:+ file_path)), w)
  /\ process_and_wait E fuel self file_path task poll_interval timeout w
     = (Raise (FileNotFoundError ("File not found: " +:+ file_path)), w).
Proof.
  intros Hno.
  assert (Hdoc : forall dt,
    process_document E self file_path dt task w
    = (Raise (FileNotFoundError ("File not found: " +:+ file_path)), w)).
  { intros dt. rewrite process_document_run. by rewrite Hno. }
  split; [apply Hdoc|].
  unfold process_and_wait, bind. by rewrite Hdoc.
Qed.

(** ** Payloads that end the polling *)

Section Stops.

Context (E : env) (self : sdk).

(** A fetched payload that is not pending is the last one fetched, and
    it decides the outcome. *)
Lemma loop_run_stops document_id poll_interval timeout start_time new r :
  loop_run E self document_id poll_interval timeout start_time new r ->
  forall pre p post,
    fetched_payloads new = pre ++ p :: post ->
    inspect p <> Pending ->
    post = []
    /\ match inspect p with
       | Complete => r = Return p
       | Failed => r = Raise ProcessingFailedError
       | Broken e => r = Raise e
       | Pending => True
       end.
Proof.
  intros Hrun pre p post Heq Hp.
  apply loop_run_payloads in Hrun as (pend & fin & Hfetched & Hpend & Hfin).
  rewrite Hfetched in Heq.
  assert (Hnotin : p ∉ pend).
  { intros Hin. rewrite Forall_forall in Hpend. by apply Hpend in Hin. }
  destruct fin as [|q [|q' fin]]; [| |done].
  - rewrite app_nil_r in Heq. subst pend. destruct Hnotin.
    apply elem_of_app. right. apply list_elem_of_here.
  - destruct (decide (post = [])) as [->|Hpost].
    + apply app_inj_tail in Heq as [_ ->]. split; [done|].
      by destruct (inspect p).
    + destruct (exists_last Hpost) as (post' & x & ->).
      change (pre ++ p :: post' ++ [x]) with (pre ++ (p :: post') ++ [x]) in Heq.
      rewrite app_assoc in Heq. apply app_inj_tail in Heq as [-> _].
      destruct Hnotin. apply elem_of_app. right. apply list_elem_of_here.
Qed.

Lemma inspect_broken p :
  result_shape p = false ->
  exists v,
    inspect p = Broken (AttributeError (py_type_name v) "get")
    /\ (v = p \/ field p "data" = Some v)
    /\ forall o, v <> JObject o.
Proof.
  intros Hs.
  destruct p as [| | | | | |o];
    try (match goal with |- exists v, inspect ?p = _ /\ _ => exists p end;
         split_and!; [reflexivity|by left|done]).
  unfold result_shape in Hs. unfold inspect, field.
  destruct (o !! "data") as [[| | | | | |d]|] eqn:Hd; try done;
    match type of Hd with _ = Some ?x => exists x end;
    (split_and!; [reflexivity|by right|done]).
Qed.

(** The events a run of [process_and_wait] adds, when it fetched
    anything, are those of the loop after the upload and the clock
    reading that starts it. *)
Lemma process_and_wait_fetched
    fuel file_path task poll_interval timeout w new :
  let run := process_and_wait E fuel self file_path task poll_interval
               timeout w in
  trace run.2 = trace w ++ new ->
  fetched_payloads new <> [] ->
  exists c rep id t0 new',
    new = EvHttp (upload_request E self file_path "lr" task c) rep
            :: EvClock t0 :: new'
    /\ fetched_payloads new = fetched_payloads new'
    /\ loop_run E self id poll_interval timeout t0 new' run.1.
Proof.
  intros run Htr Hne.
  destruct (process_and_wait_run E self fuel file_path task poll_interval
              timeout w)
    as [(e & new' & Hr & Htr' & Hnew)
       |(c & rep & sub & id & t0 & new' & _ & _ & _ & Htr' & Hrun)];
    fold run in Hr || fold run in Hrun; fold run in Htr';
    rewrite Htr in Htr'; apply app_inv_head in Htr'; subst new.
  - destruct Hne.
    destruct Hnew as [->|(c & rep & ->)]; [done|].
    apply fetched_payloads_upload.
  - exists c, rep, id, t0, new'. split; [done|]. split; [|done].
    by rewrite fetched_payloads_upload.
Qed.

(** X4: a fetched payload that is not of the result shape (not an
    object, or with a [data] field that is not an object, [null]
    included) ends [process_and_wait] with the [AttributeError] of the
    failed [.get], whatever its [status] says; it is the last payload
    fetched. *)
Theorem ill_shaped_payload_ends_polling
    fuel file_path task poll_interval timeout w new pre p post :
  let run := process_and_wait E fuel self file_path task poll_interval
               timeout w in
  trace run.2 = trace w ++ new ->
  fetched_payloads new = pre ++ p :: post ->
  result_shape p = false ->
  post = []
  /\ exists v,
       run.1 = Raise (AttributeError (py_type_name v) "get")
       /\ (v = p \/ field p "data" = Some v)
       /\ forall o, v <> JObject o.
Proof.
  intros run Htr Hfetched Hshape.
  destruct (process_and_wait_fetched fuel file_path task poll_interval
              timeout w new Htr)
    as (c & rep & id & t0 & new' & -> & Heq & Hrun);
    [rewrite Hfetched; by destruct pre|].
  fold run in Hrun. rewrite Heq in Hfetched.
  destruct (inspect_broken p Hshape) as (v & Hv & Hor & Hnot).
  destruct (loop_run_stops _ _ _ _ _ _ Hrun _ _ _ Hfetched) as [-> Hr];
    [by rewrite Hv|].
  rewrite Hv in Hr. split; [done|]. by exists v.
Qed.

End Stops.

(** ** The rhythm of the loop *)

Section Rhythm.

Context (E : env) (self : sdk).

Lemma loop_run_rhythm document_id poll_interval timeout start_time new r :
  loop_run E self document_id poll_interval timeout start_time new r ->
  exists n m,
    requests_of new = replicate n (result_request E self document_id)
    /\ filter is_sleep new = replicate m (EvSleep poll_interval)
    /\ (m <= n <= S m)%nat.
Proof.
  induction 1 as [|t Ht|t rep e Ht Hd|t rep p Ht Hd Hi|t rep p Ht Hd Hi
                  |t rep p e Ht Hd Hi|t rep p Ht Hd Hi Hpi
                  |t rep p rest r Ht Hd Hi Hpi Hrun (n & m & Hn & Hm & Hle)].
  1-2: exists 0%nat, 0%nat; split_and!; (done || lia).
  1-5: exists 1%nat, 0%nat; split_and!; (done || lia).
  exists (S n), (S m). split_and!; [| |lia..].
  - simpl. by rewrite Hn.
  - change (filter is_sleep
              (EvClock t :: EvHttp (result_request E self document_id) rep
                 :: EvSleep poll_interval :: rest))
      with (EvSleep poll_interval :: filter is_sleep rest).
    by rewrite Hm.
Qed.

(** X5: what [process_and_wait] sends is one upload followed by result
    fetches of one and the same document, all identical; it never
    submits twice and never logs in again.  The sleeps of the run are
    all of exactly [poll_interval] seconds, one between two consecutive
    fetches: the number of fetches is the number of sleeps, or one
    more. *)
Theorem one_upload_then_identical_fetches
    fuel file_path task poll_interval timeout w :
  let run := process_and_wait E fuel self file_path task poll_interval
               timeout w in
  exists new,
    trace run.2 = trace w ++ new
    /\ ((requests_of new = [] /\ filter is_sleep new = [])
        \/ exists content document_id n m,
             requests_of new
             = upload_request E self file_path "lr" task content
                 :: replicate n (result_request E self document_id)
             /\ filter is_sleep new = replicate m (EvSleep poll_interval)
             /\ (m <= n <= S m)%nat).
Proof.
  intros run.
  destruct (process_and_wait_run E self fuel file_path task poll_interval
              timeout w)
    as [(e & new & _ & Htr & [->|(c & rep & ->)])
       |(c & rep & sub & id & t0 & new & _ & _ & _ & Htr & Hrun)];
    fold run in Htr; eexists; (split; [exact Htr|]).
  - by left.
  - right. exists c, JNull, 0%nat, 0%nat. split_and!; (done || lia).
  - right. apply loop_run_rhythm in Hrun as (n & m & Hn & Hm & Hle).
    exists c, id, n, m. simpl. rewrite Hn. split; [done|]. split; [|done].
    exact Hm.
Qed.

Lemma loop_run_negative_interval
    document_id poll_interval timeout start_time new r :
  loop_run E self document_id poll_interval timeout start_time new r ->
  (poll_interval < 0)%Z ->
  filter is_sleep new = []
  /\ (fetched_payloads new = []
      \/ exists p,
           fetched_payloads new = [p]
           /\ (inspect p = Pending ->
               r = Raise (ValueError "sleep length must be non-negative"))).
Proof.
  intros Hrun Hneg.
  destruct Hrun as [|t Ht|t rep e Ht Hd|t rep p Ht Hd Hi|t rep p Ht Hd Hi
                    |t rep p e Ht Hd Hi|t rep p Ht Hd Hi Hpi
                    |t rep p rest r Ht Hd Hi Hpi Hrun];
    try lia; (split; [done|]);
    try change (fetched_payloads (EvClock ?t' :: ?tr)) with (fetched_payloads tr);
    rewrite ?fetched_payloads_result, ?Hd;
    try change (fetched_payloads []) with (@nil json);
    try (by left); right; exists p; (split; [done|]); congruence.
Qed.

(** X6: with a negative poll interval the loop cannot wait.  A run of
    [process_and_wait] then never sleeps and fetches at most one
    payload; if that payload is pending (of the result shape, neither
    complete nor failed), the run ends with the [ValueError] of
    [time.sleep]. *)
Theorem negative_poll_interval_polls_once
    fuel file_path task poll_interval timeout w new :
  (poll_interval < 0)%Z ->
  let run := process_and_wait E fuel self file_path task poll_interval
               timeout w in
  trace run.2 = trace w ++ new ->
  filter is_sleep new = []
  /\ (length (fetched_payloads new) <= 1)%nat
  /\ forall p,
       p ∈ fetched_payloads new ->
       result_shape p = true ->
       completion_condition p = false ->
       status_failed p = false ->
       run.1 = Raise (ValueError "sleep length must be non-negative").
Proof.
  intros Hneg run Htr.
  destruct (process_and_wait_run E self fuel file_path task poll_interval
              timeout w)
    as [(e & new' & Hr & Htr' & Hnew)
       |(c & rep & sub & id & t0 & new' & _ & _ & _ & Htr' & Hrun)];
    fold run in Hr || fold run in Hrun; fold run in Htr';
    rewrite Htr in Htr'; apply app_inv_head in Htr'; subst new.
  - assert (Hnone : fetched_payloads new' = []).
    { destruct Hnew as [->|(c & rep & ->)]; [done|].
      apply fetched_payloads_upload. }
    rewrite Hnone. split_and!.
    + by destruct Hnew as [->|(c & rep & ->)].
    + simpl. lia.
    + intros p Hin. by apply elem_of_nil in Hin.
  - rewrite fetched_payloads_upload.
    change (fetched_payloads (EvClock t0 :: new')) with (fetched_payloads new').
    destruct (loop_run_negative_interval _ _ _ _ _ _ Hrun Hneg)
      as (Hsleep & [Hnone|(q & Hq & Hpend)]).
    + rewrite Hnone. split_and!; [done|simpl; lia|].
      intros p Hin. by apply elem_of_nil in Hin.
    + rewrite Hq. split_and!; [done|simpl; lia|].
      intros p Hin%list_elem_of_singleton Hshape Hc Hf. subst q.
      apply Hpend. by apply inspect_pending_iff.
Qed.

Lemma Qle_bool_negative x z :
  (z < 0)%Z -> Qle_bool (x - x) (inject_Z z) = false.
Proof.
  intros Hz. destruct (Qle_bool _ _) eqn:Hle; [|done].
  apply Qle_bool_iff in Hle.
  assert (Hq : (inject_Z z < inject_Z 0)%Q) by by rewrite <- Zlt_Qlt.
  change (inject_Z 0) with 0%Q in Hq. lra.
Qed.

(** X7: with a negative timeout nothing is ever fetched.  Once the
    submission has succeeded, [process_and_wait] reads the clock twice
    (the loop's start, the first check) and raises [TimeoutError]
    straight away: the upload is the only exchange of the run. *)
Theorem negative_timeout_fetches_nothing
    fuel file_path task poll_interval timeout content sub document_id w :
  (timeout < 0)%Z ->
  fs E file_path = RegularFile content ->
  task ∈ valid_tasks ->
  let req := upload_request E self file_path "lr" task content in
  let sr := server E (length (filter is_http (trace w))) req in
  decode_reply sr.2 = Return sub ->
  field sub "document_id" = Some document_id ->
  let run := process_and_wait E (S fuel) self file_path task poll_interval
               timeout w in
  run.1 = Raise (timeout_error timeout)
  /\ requests_of (trace run.2) = requests_of (trace w) ++ [req]
  /\ exists t0,
       trace run.2 = trace w ++ [EvHttp req sr.2; EvClock t0; EvClock t0].
Proof.
  intros Hneg Hfs Htask req sr Hdec Hid run. subst run.
  unfold process_and_wait, bind.
  rewrite (process_document_sends _ _ _ _ _ _ w Hfs Htask). cbv zeta.
  fold req. fold sr. rewrite Hdec.
  destruct sub as [| | | | | |o]; try done. simpl in Hid.
  unfold py_getitem. rewrite Hid. unfold ret, time_time.
  rewrite poll_loop_step. cbv zeta.
  change (now (log ?e ?w')) with (now w').
  rewrite Qle_bool_negative by done. simpl.
  split_and!; [done| |].
  - by rewrite <- !app_assoc, !requests_of_app.
  - eexists. by rewrite <- !app_assoc.
Qed.

End Rhythm.

(** ** Errors of a single call *)

Section Calls.

Context (E : env) (self : sdk).

(** X8: [process_document] sends at most one request, and only for a
    file it could read and a valid task.  Either the call raises and
    leaves the world untouched, or it has sent exactly one request, the
    upload, the file having been opened and the task being valid; a
    value it returns is the decoded body of the reply to that
    request. *)
Theorem process_document_sends_at_most_once file_path doc_type task w :
  let run := process_document E self file_path doc_type task w in
  (run.2 = w /\ exists e, run.1 = Raise e)
  \/ (exists content rep,
        fs E file_path = RegularFile content
        /\ task ∈ valid_tasks
        /\ trace run.2
           = trace w ++ [EvHttp (upload_request E self file_path doc_type task
                                   content) rep]
        /\ forall p, run.1 = Return p -> decode_reply rep = Return p).
Proof.
  intros run. subst run. rewrite process_document_run.
  unfold path_exists.
  destruct (fs E file_path) as [|c|msg] eqn:Hfs; simpl.
  - left. eauto.
  - destruct (decide (task ∈ valid_tasks)) as [Hin|Hnot].
    + rewrite bool_decide_true by done. simpl. right.
      eexists c, _. split_and!; [done..|]. by intros p ->.
    + rewrite bool_decide_false by done. simpl. left. eauto.
  - destruct (bool_decide (task ∈ valid_tasks)); simpl; left; eauto.
Qed.

(** X9: what is uploaded.  For a readable file the request is a [POST]
    to the base URL followed by [/mr/api/v2/docs], whose body is a
    single part named ["file"]: the file's bytes as read, under the
    name [Path(p).name], with the guessed content type, or
    ["application/octet-stream"] when the guess is [None] or empty; the
    content type sent is never empty. *)
Theorem upload_carries_the_file file_path doc_type task content w :
  fs E file_path = RegularFile content ->
  task ∈ valid_tasks ->
  let run := process_document E self file_path doc_type task w in
  exists req rep part,
    trace run.2 = trace w ++ [EvHttp req rep]
    /\ req_method req = POST
    /\ req_url req = base_url self +:+ "/mr/api/v2/docs"
    /\ req_body req = FilesBody [("file", part)]
    /\ part_content part = content
    /\ part_filename part = path_name E file_path
    /\ part_content_type part <> ""
    /\ (forall ct, guess_type E file_path = Some ct -> ct <> "" ->
                   part_content_type part = ct)
    /\ (guess_type E file_path = None \/ guess_type E file_path = Some "" ->
        part_content_type part = "application/octet-stream").
Proof.
  intros Hfs Htask run. subst run.
  rewrite (process_document_sends _ _ _ _ _ _ w Hfs Htask). simpl.
  eexists _, _, _. split; [done|]. simpl. split_and!; try done.
  - unfold content_type_or_default.
    destruct (guess_type E file_path) as [ct|]; [|done].
    destruct (String.eqb ct "") eqn:Hct; [done|].
    by apply String.eqb_neq in Hct.
  - intros ct -> Hct. unfold content_type_or_default.
    apply String.eqb_neq in Hct. by rewrite Hct.
  - by intros [-> | ->].
Qed.

(** X10: [get_document_result] always performs exactly one exchange, a
    [GET] without query parameters or body on the result resource of
    the document.  When no response arrives, the request failure leaves
    the call as it is; a status between 400 and 599 is an [HTTPError]
    even when the body is decodable JSON; and a value is returned only
    as the decoded body of a response with another status. *)
Theorem get_document_result_failures document_id w :
  let run := get_document_result E self document_id w in
  exists req rep,
    trace run.2 = trace w ++ [EvHttp req rep]
    /\ req_method req = GET
    /\ req_url req
       = base_url self +:+ "/mr/api/v1/docs/" +:+ py_format E document_id
           +:+ "/result"
    /\ req_params req = [] /\ req_body req = NoBody
    /\ (forall msg,
          rep = TransportFailure msg ->
          run.1 = Raise (RequestException (ConnectionFailure msg)))
    /\ (forall st b,
          rep = Response st b -> error_status st = true ->
          run.1 = Raise (RequestException (HTTPError st)))
    /\ (forall p,
          run.1 = Return p ->
          exists st, rep = Response st (Some p) /\ error_status st = false).
Proof.
  intros run. subst run. rewrite get_document_result_run. cbv zeta. simpl.
  eexists _, _. split; [done|]. simpl. split_and!; try done.
  - by intros msg ->.
  - intros st b -> Hst. simpl. by rewrite Hst.
  - intros p. destruct (server E _ _).2 as [msg|st [q|]]; simpl; [done|..];
      destruct (error_status st) eqn:Hst; try done.
    intros [= <-]. by exists st.
Qed.

(** A failed fetch is the last event of the loop and its error the
    outcome. *)
Lemma loop_run_fetch_failure
    document_id poll_interval timeout start_time new r :
  loop_run E self document_id poll_interval timeout start_time new r ->
  forall pre req rep post e,
    new = pre ++ EvHttp req rep :: post ->
    decode_reply rep = Raise e ->
    r = Raise e /\ post = [].
Proof.
  induction 1 as [|t Ht|t rep e Ht Hd|t rep p Ht Hd Hi|t rep p Ht Hd Hi
                  |t rep p e Ht Hd Hi|t rep p Ht Hd Hi Hpi
                  |t rep p rest r Ht Hd Hi Hpi Hrun IH];
    intros pre req rep' post e' Heq Hfail.
  1: by destruct pre.
  1: destruct pre as [|? [|? ?]]; by simplify_eq/=.
  1-5: destruct pre as [|? [|? [|? ?]]]; simplify_eq/=; split; congruence.
  destruct pre as [|? [|? [|? pre]]]; simplify_eq/=; [congruence|].
  by eapply IH.
Qed.

(** X11: a failed result fetch is not retried.  If a fetch of a run of
    [process_and_wait] gets no response, an error status or an
    undecodable body, the run ends there with that request failure:
    the failed exchange is the last event. *)
Theorem failed_fetch_is_not_retried
    fuel file_path task poll_interval timeout w new pre req rep post e :
  let run := process_and_wait E fuel self file_path task poll_interval
               timeout w in
  trace run.2 = trace w ++ new ->
  new = pre ++ EvHttp req rep :: post ->
  req_method req = GET ->
  decode_reply rep = Raise e ->
  run.1 = Raise e
  /\ post = []
  /\ exists why, e = RequestException why.
Proof.
  intros run Htr Hnew Hget Hfail.
  destruct (process_and_wait_run E self fuel file_path task poll_interval
              timeout w)
    as [(e' & new' & Hr & Htr' & Hnew')
       |(c & rep' & sub & id & t0 & new' & _ & _ & _ & Htr' & Hrun)];
    fold run in Hr || fold run in Hrun; fold run in Htr';
    rewrite Htr in Htr'; apply app_inv_head in Htr'; subst new.
  - destruct Hnew' as [->|(c & rep' & ->)].
    + by destruct pre.
    + destruct pre as [|? [|? ?]]; by simplify_eq/=.
  - destruct pre as [|? [|? pre]]; simplify_eq/=.
    destruct (loop_run_fetch_failure _ _ _ _ _ _ Hrun _ _ _ _ _ eq_refl Hfail)
      as [Hr ->].
    split_and!; [done..|]. by apply decode_reply_raise in Hfail.
Qed.

End Calls.

(** * Properties of the command line *)

Module CliProperties.

Import Cli.

Lemma completion_condition_inv p :
  completion_condition p = true ->
  exists o d f g,
    p = JObject o /\ o !! "data" = Some (JObject d)
    /\ d !! "fhir" = Some f /\ py_truthy f = true
    /\ d !! "output" = Some g /\ py_truthy g = true.
Proof.
  unfold completion_condition, nonempty_field, field.
  destruct p as [| | | | | |o]; try done.
  destruct (o !! "data") as [[| | | | | |d]|] eqn:Hd; try done.
  destruct (d !! "fhir") as [f|] eqn:Hf; [|done].
  destruct (d !! "output") as [g|] eqn:Hg; [|by rewrite andb_false_r].
  intros [Hft Hgt]%andb_true_iff. by exists o, d, f, g.
Qed.

Lemma printed_cons to x l t :
  l = map (Printed to) t -> Printed to x :: l = map (Printed to) (x :: t).
Proof. by intros ->. Qed.

Lemma printed_nil to : [] = map (Printed to) [].
Proof. done. Qed.

Ltac printed_texts :=
  apply (f_equal (app _)); repeat eapply printed_cons; apply printed_nil.

(** X12: [print_result] never fails on a payload that satisfies the
    completion condition, in any of its modes; it only writes to
    standard output, and with [as_json] it writes exactly the JSON
    dump of the whole payload.  (These are the payloads [main] calls
    it with.) *)
Theorem print_result_safe_on_completed_payload CE p verbose as_json st :
  completion_condition p = true ->
  let run := print_result CE p verbose as_json st in
  run.1 = Done tt
  /\ world_of run.2 = world_of st
  /\ sdk_var run.2 = sdk_var st
  /\ exists texts,
       console run.2 = console st ++ map (Printed Stdout) texts
       /\ (as_json = true -> texts = [json_dumps CE p +:+ nl]).
Proof.
  intros Hc run. subst run.
  apply completion_condition_inv in Hc
    as (o & d & f & g & -> & Hd & Hf & Hft & Hg & Hgt).
  destruct st as [w c v].
  unfold print_result. destruct as_json.
  { unfold print, print_end, emit. simpl. split_and!; [done..|].
    by exists [json_dumps CE (JObject o) +:+ nl]. }
  unfold cbind, lift, py_get, py_getitem, ret, print, print_end, emit, when,
    cret. simpl. rewrite Hd. simpl.
  destruct verbose; simpl; rewrite ?Hf, ?Hg; simpl; rewrite ?Hft, ?Hgt; simpl;
    rewrite ?Hf, ?Hg; simpl; rewrite ?Hgt; simpl;
    (split_and!; [done..|]); rewrite <- ?app_assoc; simpl;
    (eexists; split; [printed_texts|done]).
Qed.

(** X13: the name [json] is local to [print_result] and is bound by the
    [import] statements of the [as_json] branch and of the [fhir]
    branch only.  In verbose mode, for a payload whose [data] has a
    non-empty [output] but no non-empty [fhir], the [output] branch
    reads the name unbound: the call raises [UnboundLocalError] after
    writing the header of the output section. *)
Theorem print_result_verbose_output_without_fhir CE o d g st :
  o !! "data" = Some (JObject d) ->
  py_truthy (default JNull (d !! "fhir")) = false ->
  d !! "output" = Some g ->
  py_truthy g = true ->
  let run := print_result CE (JObject o) true false st in
  run.1 = Fail (UnboundLocalError "json")
  /\ exists texts,
       console run.2 = console st ++ map (Printed Stdout) texts
       /\ last texts = Some (py_mul "-" 60 +:+ nl).
Proof.
  intros Hd Hf Hg Hgt run. subst run. destruct st as [w c v].
  unfold print_result, cbind, lift, py_get, py_getitem, ret, print, print_end,
    emit, when, cret, cfail. simpl. rewrite Hd. simpl. rewrite Hf. simpl.
  rewrite Hg. simpl. rewrite Hgt. simpl. split; [done|].
  rewrite <- ?app_assoc. simpl.
  eexists. split; [printed_texts|done].
Qed.

(** ** The waiting loop of [main] and the loop of the SDK *)

Lemma print_result_completed CE p verbose as_json w c v :
  completion_condition p = true ->
  exists out,
    print_result CE p verbose as_json
      {| world_of := w; console := c; sdk_var := v |}
    = (Done tt, {| world_of := w; console := c ++ out; sdk_var := v |}).
Proof.
  intros Hc.
  apply completion_condition_inv in Hc
    as (o & d & f & g & -> & Hd & Hf & Hft & Hg & Hgt).
  unfold print_result. destruct as_json.
  { unfold print, print_end, emit. simpl. by eexists. }
  unfold cbind, lift, py_get, py_getitem, ret, print, print_end, emit, when,
    cret. simpl. rewrite Hd. simpl.
  destruct verbose; simpl; rewrite ?Hf, ?Hg; simpl; rewrite ?Hft, ?Hgt; simpl;
    rewrite ?Hf, ?Hg; simpl; rewrite ?Hgt; simpl;
    rewrite <- ?app_assoc; by eexists.
Qed.

Lemma wait_inspect {A} p (hc hf k : C A) w c v :
  let st := {| world_of := w; console := c; sdk_var := v |} in
  (do* data := lift (py_get p "data" (JObject ∅)) in
   do* complete := lift (check_complete data) in
   if complete then hc
   else
     do* status := lift (py_get p "status" JNull) in
     if py_eq_str status "failed" then hf else k) st
  = match inspect p with
    | Complete => hc st
    | Failed => hf st
    | Pending => k st
    | Broken e => (Fail (Sdk e), st)
    end.
Proof.
  intros st. subst st.
  unfold inspect, cbind, lift, py_get, check_complete, bind, py_get, ret, raise.
  destruct p as [| | | | | |o]; try done. simpl.
  destruct (default (JObject ∅) (o !! "data")) as [| | | | | |d]; try done.
  simpl.
  destruct (py_truthy (default JNull (d !! "fhir"))); simpl;
    [destruct (py_truthy (default JNull (d !! "output"))); simpl|];
    try done; by destruct (py_eq_str _ _).
Qed.

Lemma inspect_broken_kind p e :
  inspect p = Broken e -> exists ty attr, e = AttributeError ty attr.
Proof.
  unfold inspect. destruct p as [| | | | | |o]; try (intros [= <-]; eauto).
  destruct (default (JObject ∅) (o !! "data")) as [| | | | | |d];
    try (intros [= <-]; eauto).
  destruct (_ && _); [done|]. by destruct (py_eq_str _ _).
Qed.

Section Mirror.

Context (CE : cli_env) (a : args) (client : sdk) (document_id : json).
Context (start_time : Q).

Lemma wait_loop_mirrors_poll_loop fuel w c v :
  let r := poll_loop (sdk_env CE) fuel client document_id (poll_interval a)
             (timeout a) start_time w in
  exists c',
    wait_loop CE fuel a client document_id start_time
      {| world_of := w; console := c; sdk_var := v |}
    = (loop_exit_of r.1, {| world_of := r.2; console := c'; sdk_var := v |}).
Proof.
  revert w c. induction fuel as [|fuel IH]; intros w c; [by eexists|].
  cbv zeta. rewrite poll_loop_step. cbv zeta.
  cbn [wait_loop]. unfold cbind at 1, lift at 1, time_time. simpl.
  destruct (Qle_bool _ _) eqn:Hle; simpl.
  2:{ unfold cbind, print, print_end, emit, cret. simpl. by eexists. }
  unfold cbind at 1, lift at 1. rewrite get_document_result_run. cbv zeta.
  simpl.
  destruct (decode_reply _) as [p|e|] eqn:Hdec; simpl; [| |by eexists].
  2:{ apply decode_reply_raise in Hdec as [why ->]. by eexists. }
  rewrite wait_inspect. cbv zeta.
  destruct (inspect p) as [| | |e] eqn:Hp.
  - apply inspect_complete_iff in Hp.
    unfold cbind at 1.
    destruct (quiet a); unfold when, print, print_end, emit, cret; simpl;
      unfold cbind;
      match goal with |- context [print_result CE p ?vb ?js
                                    {| world_of := ?w'; console := ?c';
                                       sdk_var := ?v' |}] =>
        destruct (print_result_completed CE p vb js w' c' v' Hp) as [out Hout]
      end; rewrite Hout; by eexists.
  - unfold cbind, print, print_end, emit, cret. simpl. by eexists.
  - unfold cbind at 1.
    assert (Hdot : forall w0 c0 v0,
      exists c1, when (negb (quiet a)) (print_end Stdout "." "")
                   {| world_of := w0; console := c0; sdk_var := v0 |}
                 = (Done tt, {| world_of := w0; console := c1;
                                sdk_var := v0 |})).
    { intros w0 c0 v0. destruct (quiet a); by eexists. }
    match goal with |- context [when _ _ {| world_of := ?w0; console := ?c0;
                                            sdk_var := ?v0 |}] =>
      destruct (Hdot w0 c0 v0) as [c1 Hc1]; rewrite Hc1 end.
    unfold cbind at 1, lift at 1, bind at 1, time_sleep. simpl.
    destruct (poll_interval a <? 0)%Z; simpl; [by eexists|].
    apply IH.
  - apply inspect_broken_kind in Hp as (ty & attr & ->). by eexists.
Qed.

End Mirror.

(** ** Exit codes *)

Section Main.

Context (CE : cli_env) (fuel : nat) (a : args).

Let E := sdk_env CE.

(** X14: the checks [main] makes before anything else.  When the
    credentials cannot be resolved ([ValueError] from the
    environment), no file is given, or the file does not exist, [main]
    returns 1 having written to standard error only (and the help
    text): the world of the SDK is untouched, no client is built. *)
Theorem preflight_failure_exits_1_without_network w :
  (exists msg, resolve_credentials CE a = inl (ValueError msg))
  \/ (exists c, resolve_credentials CE a = inr c
                /\ (file a = None
                    \/ exists path, file a = Some path
                                    /\ path_exists E path = false)) ->
  let run := main CE fuel a (initial_state w) in
  run.1 = Done 1%Z
  /\ world_of run.2 = w
  /\ sdk_var run.2 = None
  /\ console run.2 <> []
  /\ Forall (fun ev => ev = HelpPrinted \/ exists t, ev = Printed Stderr t)
        (console run.2).
Proof.
  intros Hpre run. subst run. unfold main.
  destruct Hpre as [[msg ->]|([cid secret] & -> & [->|(path & -> & Hno)])].
  - unfold cbind, print, print_end, emit, cret. simpl.
    split_and!; [done..|].
    repeat (apply List.Forall_cons; [first [by left|right; by eexists]|]).
    apply List.Forall_nil.
  - unfold cbind, print, print_end, emit, cret. simpl.
    split_and!; [done..|].
    repeat (apply List.Forall_cons; [first [by left|right; by eexists]|]).
    apply List.Forall_nil.
  - fold E. rewrite Hno. unfold cbind, print, print_end, emit, cret. simpl.
    split_and!; [done..|].
    repeat (apply List.Forall_cons; [first [by left|right; by eexists]|]).
    apply List.Forall_nil.
Qed.

Context (cid secret path : string).
Hypothesis Hcred : resolve_credentials CE a = inr (cid, secret).
Hypothesis Hfile : file a = Some path.
Hypothesis Hexists : path_exists E path = true.

Lemma main_is_the_try_block st :
  main CE fuel a st
  = try_except_finally (main_body CE fuel a cid secret path)
      (main_handler CE a) main_finally st.
Proof. unfold main. fold E. by rewrite Hcred, Hfile, Hexists. Qed.

Lemma construction_failure_run w e :
  (__init__ E cid secret (base_url a) w).1 = Raise e ->
  exists c,
    main CE fuel a (initial_state w)
    = (Fail (UnboundLocalError "sdk"),
       {| world_of := (__init__ E cid secret (base_url a) w).2;
          console := c; sdk_var := None |})
    /\ (SessionClosed ∉ c)
    /\ Printed Stderr (nl +:+ "Error: " +:+ str_exn CE (Sdk e) +:+ nl) ∈ c.
Proof.
  intros Hinit. rewrite main_is_the_try_block.
  unfold try_except_finally, main_body, main_handler, main_finally,
    initial_state, cbind, lift, when, print, print_end, emit, cret.
  fold E.
  destruct (quiet a), (verbose a); cbv zeta;
    cbn [negb world_of console sdk_var app];
    rewrite Hinit; cbn [negb world_of console sdk_var app];
    (eexists; split; [reflexivity|]);
    rewrite ?elem_of_cons, ?elem_of_nil; intuition congruence.
Qed.

(** X15: when the construction of the client fails, [main] does not
    return 1.  The handler prints the error, but the [finally] clause
    then calls [sdk.close()] on a variable that was never assigned:
    the [UnboundLocalError] replaces the pending return, and no session
    is closed. *)
Theorem construction_failure_escapes_as_UnboundLocalError w e :
  (__init__ E cid secret (base_url a) w).1 = Raise e ->
  let run := main CE fuel a (initial_state w) in
  run.1 = Fail (UnboundLocalError "sdk")
  /\ world_of run.2 = (__init__ E cid secret (base_url a) w).2
  /\ (SessionClosed ∉ console run.2)
  /\ Printed Stderr (nl +:+ "Error: " +:+ str_exn CE (Sdk e) +:+ nl)
       ∈ console run.2.
Proof.
  intros Hinit run. subst run.
  destruct (construction_failure_run w e Hinit) as (c & -> & Hno & Hin).
  done.
Qed.

Ltac crunch :=
  cbn [negb world_of console sdk_var app fst snd exit_code_of loop_exit_of].

Ltac closed_console :=
  first
    [ by eexists
    | match goal with
      | |- exists c, (_, {| world_of := _; console := ?l; sdk_var := _ |}) = _ =>
          exists (removelast l); reflexivity
      end ].

(** What [main] does once the client is built, in terms of the SDK's
    own operations: the submission, the lookup of the identifier and,
    unless [--no-wait] is given, the clock reading and the loop. *)
Lemma main_after_construction w client w1 :
  __init__ E cid secret (base_url a) w = (Return client, w1) ->
  let r :=
    (let* sub := process_document E client path (doc_type a) (task a) in
     let* document_id := py_getitem sub "document_id" in
     if no_wait a then ret document_id
     else
       let* start_time := time_time in
       poll_loop E fuel client document_id (poll_interval a) (timeout a)
         start_time) w1 in
  exists c,
    main CE fuel a (initial_state w)
    = (exit_code_of r.1,
       {| world_of := r.2;
          console := match r.1 with
                     | OutOfFuel => c
                     | _ => c ++ [SessionClosed]
                     end;
          sdk_var := Some client |}).
Proof.
  intros Hinit. rewrite main_is_the_try_block.
  unfold try_except_finally, main_body, main_handler, main_finally,
    initial_state, cbind, lift, assign_sdk, when, print, print_end, emit, cret,
    bind, ret.
  fold E. cbv zeta. crunch.
  destruct (quiet a); crunch; rewrite Hinit; crunch;
    (destruct (process_document E client path (doc_type a) (task a) w1)
       as [[sub|e|] w2] eqn:Hdoc; crunch;
     [|destruct (verbose a); crunch; closed_console|closed_console]);
    (unfold py_getitem;
     destruct sub as [| | | | | |o];
     [destruct (verbose a); unfold raise; crunch; closed_console..|];
     destruct (o !! "document_id") as [id|];
     [|destruct (verbose a); unfold raise; crunch; closed_console]);
    unfold ret; crunch;
    (destruct (no_wait a); crunch;
     [destruct (json_flag a); crunch; closed_console|]);
    unfold time_time; crunch;
    match goal with
    | |- context [wait_loop CE fuel a client id ?s
                    {| world_of := ?w'; console := ?c'; sdk_var := ?v' |}] =>
        destruct (wait_loop_mirrors_poll_loop CE a client id s fuel w' c' v')
          as [c1 Hc1]; cbv zeta in Hc1; fold E in Hc1; rewrite Hc1
    end;
    (destruct (poll_loop E fuel client id (poll_interval a) (timeout a) _ _)
       as [[p|e|] w3]; crunch; [closed_console| |closed_console]);
    destruct e; destruct (verbose a); crunch; closed_console.
Qed.

Lemma process_document_fuel client file_path dt tk w :
  (process_document E client file_path dt tk w).1 <> OutOfFuel.
Proof.
  rewrite process_document_run.
  destruct (negb _); [done|]. destruct (negb _); [done|].
  destruct (fs E file_path); try done. cbv zeta. apply decode_reply_fuel.
Qed.

(** X16: with the default document type, waiting [main] is
    [process_and_wait] with an exit code.  Once the client is built,
    the run of [main] leaves the world of the SDK exactly as
    [process_and_wait] does from there, with the same submission, the
    same fetches, clock readings and sleeps; it returns 0 when
    [process_and_wait] returns a payload and 1 when it raises, and
    then the closing of the session is the last thing it does. *)
Theorem main_waits_like_process_and_wait w client w1 :
  __init__ E cid secret (base_url a) w = (Return client, w1) ->
  no_wait a = false ->
  doc_type a = "lr" ->
  let r := process_and_wait E fuel client path (task a) (poll_interval a)
             (timeout a) w1 in
  let run := main CE fuel a (initial_state w) in
  run.1 = exit_code_of r.1
  /\ world_of run.2 = r.2
  /\ (r.1 <> OutOfFuel -> last (console run.2) = Some SessionClosed).
Proof.
  intros Hinit Hwait Hdt r run. subst run.
  destruct (main_after_construction w client w1 Hinit) as [c Hc].
  cbv zeta in Hc. rewrite Hwait, Hdt in Hc. fold E in Hc.
  change ((let* sub := process_document E client path "lr" (task a) in
           let* document_id := py_getitem sub "document_id" in
           let* start_time := time_time in
           poll_loop E fuel client document_id (poll_interval a) (timeout a)
             start_time) w1) with r in Hc.
  rewrite Hc. cbn [fst snd world_of console]. split_and!; [done..|].
  intros Hfuel. destruct r.1; [apply last_snoc..|done].
Qed.

(** X17: with [--no-wait], once the client is built, [main] performs
    the submission and nothing else: it leaves the world of the SDK as
    [process_document] does (no result is fetched, the clock is not
    read).  It returns 0 exactly when the submission returns an object
    with a ["document_id"], and 1 otherwise; the closing of the session
    is the last thing it does. *)
Theorem main_no_wait_only_submits w client w1 :
  __init__ E cid secret (base_url a) w = (Return client, w1) ->
  no_wait a = true ->
  let r := process_document E client path (doc_type a) (task a) w1 in
  let run := main CE fuel a (initial_state w) in
  world_of run.2 = r.2
  /\ (run.1 = Done 0%Z <->
      exists sub id, r.1 = Return sub /\ field sub "document_id" = Some id)
  /\ (run.1 = Done 0%Z \/ run.1 = Done 1%Z)
  /\ last (console run.2) = Some SessionClosed.
Proof.
  intros Hinit Hnowait r run. subst run.
  destruct (main_after_construction w client w1 Hinit) as [c Hc].
  cbv zeta in Hc. rewrite Hnowait in Hc. rewrite Hc. clear Hc.
  pose proof (process_document_fuel client path (doc_type a) (task a) w1)
    as Hfuel.
  unfold bind. fold r. fold r in Hfuel. destruct r as [[sub|e|] w2]; [| |done].
  - unfold py_getitem, field.
    destruct sub as [| | | | | |o]; simpl;
      try (split_and!; [done| |by right|apply last_snoc];
           split; [done|by intros (? & ? & [= <-] & ?)]).
    destruct (o !! "document_id") as [id|] eqn:Hid; simpl.
    + split_and!; [done| |by left|apply last_snoc].
      split; [intros _; by exists (JObject o), id|done].
    + split_and!; [done| |by right|apply last_snoc].
      split; [done|]. intros (? & ? & [= <-] & Hf). simpl in Hf. congruence.
  - simpl. split_and!; [done| |by right|apply last_snoc].
    split; [done|by intros (? & ? & [=] & ?)].
Qed.

(** X18: whatever the arguments, once the client is built [main] ends
    with exit code 0 or 1 (no exception of the SDK leaves it), and the
    closing of the session is the last thing it does; the local
    variable [sdk] holds the client. *)
Theorem main_closes_the_session w client w1 :
  __init__ E cid secret (base_url a) w = (Return client, w1) ->
  let run := main CE fuel a (initial_state w) in
  sdk_var run.2 = Some client
  /\ (run.1 = Done 0%Z \/ run.1 = Done 1%Z \/ run.1 = NoFuel)
  /\ (run.1 <> NoFuel -> last (console run.2) = Some SessionClosed).
Proof.
  intros Hinit run. subst run.
  destruct (main_after_construction w client w1 Hinit) as [c Hc].
  cbv zeta in Hc. rewrite Hc. clear Hc. cbn [fst snd sdk_var console].
  match goal with |- context [exit_code_of ?x] => destruct x end;
    cbn [exit_code_of]; split_and!; try done; auto using last_snoc.
Qed.

End Main.

(** X19: the waiting loop of [main] is the loop of [process_and_wait].
    From the same world and with the same client, document, start
    time, poll interval and timeout, both make the same exchanges,
    clock readings and sleeps; where the SDK's loop returns a payload
    [main] leaves its loop by [break], where it raises the timeout or
    the reported failure [main] returns 1, and any other exception is
    raised by both. *)
Theorem wait_loop_is_poll_loop CE a client document_id start_time fuel st :
  let r := poll_loop (sdk_env CE) fuel client document_id (poll_interval a)
             (timeout a) start_time (world_of st) in
  let run := wait_loop CE fuel a client document_id start_time st in
  run.1 = loop_exit_of r.1
  /\ world_of run.2 = r.2
  /\ sdk_var run.2 = sdk_var st.
Proof.
  intros r run. subst r run. destruct st as [w c v].
  destruct (wait_loop_mirrors_poll_loop CE a client document_id start_time
              fuel w c v) as [c' Hc'].
  cbv zeta in Hc'. cbn [world_of sdk_var]. by rewrite Hc'.
Qed.

End CliProperties.

(** * The further properties on concrete runs *)

Module MoreChecks.

Import Scenario Runs Cli CliRuns CliProperties.

Lemma smart_is_valid : "smart" ∈ valid_tasks.
Proof. apply list_elem_of_here. Defined.

(** A run of the command line from login to the printed result. *)
Example main_prints_the_result :
  let run := main (cli_env_of E_cli) 5 args_wait (initial_state w0) in
  run.1 = Done 0%Z
  /\ last (console run.2) = Some SessionClosed
  /\ length (requests_of (trace (world_of run.2))) = 4%nat.
Proof. by vm_compute. Qed.

Lemma base_url_trailing_slash_ignored_witness :
  __init__ E_login "id" "secret" ("https://api.eka.care" +:+ "/") w0
  = __init__ E_login "id" "secret" "https://api.eka.care" w0.
Proof.
  exact (proj1 (base_url_trailing_slash_ignored E_login "id" "secret"
                  "https://api.eka.care" w0)).
Defined.

Lemma login_body_not_object_raises_TypeError_witness :
  error_status 200 = false
  /\ (__init__ E_login_array "id" "secret" "https://api.eka.care" w0).1
     = Raise TypeError.
Proof.
  split; [reflexivity|].
  refine (proj1 (login_body_not_object_raises_TypeError E_login_array "id"
                   "secret" "https://api.eka.care" w0 200 (JArray [])
                   eq_refl eq_refl _)).
  intros o H. discriminate H.
Defined.

Lemma missing_file_rejected_before_network_witness :
  path_exists E_completes "missing.jpg" = false
  /\ process_and_wait E_completes 5 client "missing.jpg" "smart" 10 300 w0
     = (Raise (FileNotFoundError "File not found: missing.jpg"), w0).
Proof.
  split; [reflexivity|].
  exact (proj2 (missing_file_rejected_before_network E_completes client 5
                  "missing.jpg" "lr" "smart" 10 300 w0 eq_refl)).
Defined.

Lemma ill_shaped_payload_ends_polling_witness :
  result_shape null_data_payload = false
  /\ exists v,
       (process_and_wait E_null_data 5 client "report.jpg" "smart" 10 300 w0).1
       = Raise (AttributeError (py_type_name v) "get").
Proof.
  split; [reflexivity|].
  destruct (ill_shaped_payload_ends_polling E_null_data client 5 "report.jpg"
              "smart" 10 300 w0
              (trace (process_and_wait E_null_data 5 client "report.jpg"
                        "smart" 10 300 w0).2)
              [] null_data_payload [])
    as (_ & v & Hv & _); [by vm_compute..|].
  exists v. exact Hv.
Defined.

Lemma one_upload_then_identical_fetches_witness :
  exists new,
    trace (process_and_wait E_completes 5 client "report.jpg" "smart" 10 300
             w0).2
    = trace w0 ++ new.
Proof.
  destruct (one_upload_then_identical_fetches E_completes client 5
              "report.jpg" "smart" 10 300 w0) as (new & Htr & _).
  exists new. exact Htr.
Defined.

Lemma negative_poll_interval_polls_once_witness :
  (-1 < 0)%Z
  /\ (process_and_wait E_pending 5 client "report.jpg" "smart" (-1) 300 w0).1
     = Raise (ValueError "sleep length must be non-negative").
Proof.
  split; [reflexivity|].
  destruct (negative_poll_interval_polls_once E_pending client 5 "report.jpg"
              "smart" (-1) 300 w0
              (trace (process_and_wait E_pending 5 client "report.jpg" "smart"
                        (-1) 300 w0).2)
              eq_refl eq_refl)
    as (_ & _ & Hpending).
  apply (Hpending pending_payload); [|reflexivity..].
  vm_compute. apply list_elem_of_here.
Defined.

Lemma negative_timeout_fetches_nothing_witness :
  (-1 < 0)%Z
  /\ (process_and_wait E_completes 5 client "report.jpg" "smart" 10 (-1) w0).1
     = Raise (timeout_error (-1)).
Proof.
  split; [reflexivity|].
  exact (proj1 (negative_timeout_fetches_nothing E_completes client 4
                  "report.jpg" "smart" 10 (-1) jpeg
                  (obj [("document_id", JString "doc_1");
                        ("status", JString "queued")])
                  (JString "doc_1") w0 eq_refl eq_refl smart_is_valid eq_refl
                  eq_refl)).
Defined.

Lemma upload_carries_the_file_witness :
  fs E_completes "report.jpg" = RegularFile jpeg
  /\ exists req rep part,
       trace (process_document E_completes client "report.jpg" "lr" "smart"
                w0).2
       = trace w0 ++ [EvHttp req rep]
       /\ req_body req = FilesBody [("file", part)]
       /\ part_content part = jpeg.
Proof.
  split; [reflexivity|].
  destruct (upload_carries_the_file E_completes client "report.jpg" "lr"
              "smart" jpeg w0 eq_refl smart_is_valid)
    as (req & rep & part & Htr & _ & _ & Hbody & Hcontent & _).
  exists req, rep, part. split; [exact Htr|]. split; [exact Hbody|].
  exact Hcontent.
Defined.

Lemma failed_fetch_is_not_retried_witness :
  error_status 500 = true
  /\ (process_and_wait E_fetch_500 5 client "report.jpg" "smart" 10 300 w0).1
     = Raise (RequestException (HTTPError 500)).
Proof.
  split; [reflexivity|].
  refine (proj1 (failed_fetch_is_not_retried E_fetch_500 client 5 "report.jpg"
                   "smart" 10 300 w0
                   (trace (process_and_wait E_fetch_500 5 client "report.jpg"
                             "smart" 10 300 w0).2)
                   [EvHttp (upload_request E_fetch_500 client "report.jpg" "lr"
                              "smart" jpeg) submitted;
                    EvClock 1%Q; EvClock 1%Q]
                   (result_request E_fetch_500 client (JString "doc_1"))
                   (Response 500 (Some completed_payload)) []
                   (RequestException (HTTPError 500)) _ _ _ _));
    by vm_compute.
Defined.

Lemma print_result_safe_on_completed_payload_witness :
  completion_condition completed_payload = true
  /\ (print_result (cli_env_of E_cli) completed_payload true false
        (initial_state w0)).1
     = Done tt.
Proof.
  split; [reflexivity|].
  exact (proj1 (print_result_safe_on_completed_payload (cli_env_of E_cli)
                  completed_payload true false (initial_state w0) eq_refl)).
Defined.

Lemma print_result_verbose_output_without_fhir_witness :
  (print_result (cli_env_of E_cli) (JObject output_only) true false
     (initial_state w0)).1
  = Fail (UnboundLocalError "json").
Proof.
  refine (proj1 (print_result_verbose_output_without_fhir (cli_env_of E_cli)
                   output_only (list_to_map [("output", JString "o")])
                   (JString "o") (initial_state w0) _ _ _ _));
    by vm_compute.
Defined.

Lemma preflight_failure_exits_1_without_network_witness :
  resolve_credentials (cli_env_of E_cli) args_no_credentials
    = inl (ValueError "EKACARE_CLIENT_ID is not set")
  /\ (main (cli_env_of E_cli) 5 args_no_credentials (initial_state w0)).1
     = Done 1%Z.
Proof.
  split; [reflexivity|].
  refine (proj1 (preflight_failure_exits_1_without_network (cli_env_of E_cli)
                   5 args_no_credentials w0 _)).
  left. exists "EKACARE_CLIENT_ID is not set". reflexivity.
Defined.

Lemma construction_failure_escapes_as_UnboundLocalError_witness :
  (__init__ E_login_refused "id" "secret" "https://api.eka.care" w0).1
    = Raise (PyException "Authentication failed: ")
  /\ (main (cli_env_of E_login_refused) 5 args_wait (initial_state w0)).1
     = Fail (UnboundLocalError "sdk").
Proof.
  split; [reflexivity|].
  exact (proj1 (construction_failure_escapes_as_UnboundLocalError
                  (cli_env_of E_login_refused) 5 args_wait "id" "secret"
                  "report.jpg" eq_refl eq_refl eq_refl w0
                  (PyException "Authentication failed: ") eq_refl)).
Defined.

Lemma E_cli_login :
  __init__ E_cli "id" "secret" "https://api.eka.care" w0
  = (Return client,
     (__init__ E_cli "id" "secret" "https://api.eka.care" w0).2).
Proof. by vm_compute. Defined.

Lemma main_waits_like_process_and_wait_witness :
  (main (cli_env_of E_cli) 5 args_wait (initial_state w0)).1 = Done 0%Z.
Proof.
  destruct (main_waits_like_process_and_wait (cli_env_of E_cli) 5 args_wait
              "id" "secret" "report.jpg" eq_refl eq_refl eq_refl w0 client _
              E_cli_login eq_refl eq_refl) as (Hcode & _).
  rewrite Hcode. by vm_compute.
Defined.

Lemma main_no_wait_only_submits_witness :
  (main (cli_env_of E_cli) 5 args_no_wait (initial_state w0)).1 = Done 0%Z.
Proof.
  destruct (main_no_wait_only_submits (cli_env_of E_cli) 5 args_no_wait
              "id" "secret" "report.jpg" eq_refl eq_refl eq_refl w0 client _
              E_cli_login eq_refl) as (_ & Hzero & _).
  apply Hzero.
  exists (obj [("document_id", JString "doc_1"); ("status", JString "queued")]),
    (JString "doc_1").
  by vm_compute.
Defined.

Lemma main_closes_the_session_witness :
  sdk_var (main (cli_env_of E_cli) 5 args_wait (initial_state w0)).2
  = Some client.
Proof.
  exact (proj1 (main_closes_the_session (cli_env_of E_cli) 5 args_wait
                  "id" "secret" "report.jpg" eq_refl eq_refl eq_refl w0 client
                  _ E_cli_login)).
Defined.

End MoreChecks.

(** * Properties of the example script *)

Module UsageExamplesProperties.

Import Cli CliProperties UsageExamples.







End UsageExamplesProperties.

Module ExampleChecks.

Import Scenario Cli UsageExamples UsageExamplesProperties.




End ExampleChecks.
